(** * Tabular_Review: page rendering, text-region extraction and the
      per-page document store

    A shallow embedding of [server/ocr_processor.py], [server/ocr_storage.py]
    and the [/convert] handler of [server/main.py], followed by the
    properties the specification states about them.

    - Python floats are IEEE 754 binary64 numbers: Rocq's primitive [float],
      with [PrimFloat.mul] and [PrimFloat.div] for [*] and [/].
    - Python [str] is a sequence of Unicode code points: [list N].
    - Exceptions are values of [exn]; a call that can raise returns a
      [result]; code that touches the file system, the open-document table
      or standard output runs in the state-and-exception monad [M] over
      [world].
    - The file system is a finite map from paths (lists of components) to
      nodes; a document identifier is one path component, as the uuid4
      strings minted by the upload handler are.
    - A region file holds the JSON document [json.dump] writes, which
      [json.load] reads back as the same list of region dicts.
    - What PyMuPDF, Docling and the operating system do is data of the
      model: the pages and their text dicts, whether a page renders, the
      markdown, the paths at which a write is refused. *)

From Stdlib Require Import ZArith List Ascii Floats.
From Stdlib Require Import DecimalString DecimalPos DecimalZ.
From stdpp Require Import gmap strings list fin_maps.

Local Open Scope Z_scope.

(** ** Exceptions and results *)

Abbreviation path := (list string).

Inductive exn : Type :=
| FileNotFoundError (p : path)
| FileExistsError (p : path)
| NotADirectoryError (p : path)
| IsADirectoryError (p : path)
| OSError (p : path)
| FileDataError (p : path)
| MuPDFError (msg : string)
| ConversionError (msg : string)
| JSONDecodeError (p : path)
| OverflowError.

Inductive result (A : Type) : Type :=
| Ok (a : A)
| Raise (e : exn).

Arguments Ok {A} a.
Arguments Raise {A} e.

(** ** Floats *)

Definition fmul (x y : float) : float := PrimFloat.mul x y.
Definition fdiv (x y : float) : float := PrimFloat.div x y.

Definition f72 : float := 72%float.
Definition f1 : float := 1%float.
Definition f2 : float := 2%float.

(** [float(n)] for a Python [int]: round to nearest, ties to even;
    [OverflowError] when the rounded value is not finite. *)
Definition float_of_int (n : Z) : result float :=
  match binary_normalize prec emax n 0 false with
  | S754_infinity _ => Raise OverflowError
  | sf => Ok (SF2Prim sf)
  end.

(** [dpi / 72.0] with [dpi] an [int]. *)
Definition zoom_of_dpi (dpi : Z) : result float :=
  match float_of_int dpi with
  | Ok d => Ok (fdiv d f72)
  | Raise e => Raise e
  end.

(** ** Text *)

Abbreviation codepoint := N.
Abbreviation pystr := (list codepoint).

(** [str.isspace] on one code point (CPython's [_PyUnicode_IsWhitespace]). *)
Definition is_space (c : codepoint) : bool :=
  ((9 <=? c) && (c <=? 13) || (28 <=? c) && (c <=? 32)
   || (c =? 133) || (c =? 160) || (c =? 5760)
   || (8192 <=? c) && (c <=? 8202)
   || (c =? 8232) || (c =? 8233) || (c =? 8239) || (c =? 8287)
   || (c =? 12288))%N.

Fixpoint lstrip (s : pystr) : pystr :=
  match s with
  | [] => []
  | c :: rest => if is_space c then lstrip rest else s
  end.

Definition rstrip (s : pystr) : pystr := rev (lstrip (rev s)).

(** [s.strip()] *)
Definition strip (s : pystr) : pystr := rstrip (lstrip s).

(** ** The structured text of a page ([page.get_text("dict")]) *)

Record span := Span {
  span_text : pystr;
  span_bbox : float * float * float * float
}.

Record line := Line { line_spans : list span }.

Record block := Block {
  block_type : Z;
  block_lines : list line
}.

(** ** Regions: the dicts [{"bbox": .., "text": .., "confidence": ..}] *)

Record region := Region {
  bbox : list (list float);
  text : pystr;
  confidence : float
}.

(** ** Pages and documents as PyMuPDF presents them *)

Record pixmap := Pixmap {
  pix_width : Z;
  pix_height : Z;
  pix_samples : list N
}.

(** [Image.open(io.BytesIO(pix.tobytes("png")))] *)
Inductive image : Type :=
| PngImage (pix : pixmap).

Record page := Page {
  get_pixmap : float -> result pixmap;
  get_text : result (list block)
}.

Abbreviation document := (list page).

(** ** The extraction loops of [extract_text_regions] *)

(** [for span in line["spans"]: ...] *)
Fixpoint span_loop (zoom : float) (spans : list span) (regions : list region)
  : list region :=
  match spans with
  | [] => regions
  | sp :: rest =>
      let text := strip (span_text sp) in
      match text with
      | [] => span_loop zoom rest regions
      | _ :: _ =>
          let '(x0, y0, x1, y1) := span_bbox sp in
          let x0 := fmul x0 zoom in
          let y0 := fmul y0 zoom in
          let x1 := fmul x1 zoom in
          let y1 := fmul y1 zoom in
          let bbox := [[x0; y0]; [x1; y0]; [x1; y1]; [x0; y1]] in
          span_loop zoom rest
            (regions ++ [{| bbox := bbox; text := text; confidence := f1 |}])
      end
  end.

(** [for line in block["lines"]: ...] *)
Fixpoint line_loop (zoom : float) (lines : list line) (regions : list region)
  : list region :=
  match lines with
  | [] => regions
  | ln :: rest => line_loop zoom rest (span_loop zoom (line_spans ln) regions)
  end.

(** [for block in blocks: ...] *)
Fixpoint block_loop (zoom : float) (blocks : list block) (regions : list region)
  : list region :=
  match blocks with
  | [] => regions
  | b :: rest =>
      if negb (block_type b =? 0) then block_loop zoom rest regions
      else block_loop zoom rest (line_loop zoom (block_lines b) regions)
  end.

(** ** The world: file system, open PyMuPDF documents, standard output *)

(** What an uploaded file's bytes are to the two parsers that read them:
    Docling's markdown export and PyMuPDF's [fitz.open]. *)
Record upload := Upload {
  docling_markdown : result string;
  mupdf_document : result document
}.

Inductive content : Type :=
| PngFile (img : image)
| JsonFile (regions : list region)
| UploadedFile (u : upload).

Inductive node : Type :=
| Dir
| File (c : content).

Inductive log_line : Type :=
| LogRendering (dpi : Z)
| LogExtracting (n_images : nat)
| LogDone (n_regions : nat)
| LogProcessed (n_images : nat) (doc_id : string)
| LogNonFatal (e : exn)
| LogError (e : exn).

(** [faults] are the paths the operating system refuses to open for
    writing (permissions, a read-only file system): the spec's
    StorageWriteError.  [open] raises before anything is created, so a
    refused write leaves the disk as it was.  A write that fails midway
    (disk full) is outside the model: what it leaves behind depends on
    where it fails and on the library that writes. *)
Record world := World {
  files : gmap path node;
  faults : gset path;
  handles : nat;
  stdout : list log_line
}.

Definition set_files (f : gmap path node -> gmap path node) (w : world) : world :=
  {| files := f (files w); faults := faults w;
     handles := handles w; stdout := stdout w |}.

Definition set_handles (f : nat -> nat) (w : world) : world :=
  {| files := files w; faults := faults w;
     handles := f (handles w); stdout := stdout w |}.

Definition set_stdout (f : list log_line -> list log_line) (w : world) : world :=
  {| files := files w; faults := faults w;
     handles := handles w; stdout := f (stdout w) |}.

(** ** The state-and-exception monad *)

Definition M (A : Type) : Type := world -> result A * world.

Definition ret {A} (a : A) : M A := fun w => (Ok a, w).

Definition raise {A} (e : exn) : M A := fun w => (Raise e, w).

Definition bind {A B} (m : M A) (k : A -> M B) : M B :=
  fun w =>
    match m w with
    | (Ok a, w') => k a w'
    | (Raise e, w') => (Raise e, w')
    end.

Notation "'do' x <~ c1 ;; c2" := (bind c1 (fun x => c2))
  (at level 10, x name, c1 at level 99, c2 at level 200).
Notation "'run' c1 ;; c2" := (bind c1 (fun _ => c2))
  (at level 10, c1 at level 99, c2 at level 200).

(** A pure call that can raise. *)
Definition lift {A} (r : result A) : M A := fun w => (r, w).

(** [try: body  except Exception as e: handler e] *)
Definition try_except {A} (body : M A) (handler : exn -> M A) : M A :=
  fun w =>
    match body w with
    | (Ok a, w') => (Ok a, w')
    | (Raise e, w') => handler e w'
    end.

(** [try: body  finally: fin] *)
Definition try_finally {A} (body : M A) (fin : M unit) : M A :=
  fun w =>
    match body w with
    | (r, w') =>
        match fin w' with
        | (Ok _, w'') => (r, w'')
        | (Raise e, w'') => (Raise e, w'')
        end
    end.

(** [print(...)] *)
Definition print (l : log_line) : M unit :=
  fun w => (Ok tt, set_stdout (fun out => out ++ [l]) w).

(** [fitz.open(pdf_path)] *)
Definition fitz_open (pdf_path : path) : M document :=
  fun w =>
    match files w !! pdf_path with
    | Some (File (UploadedFile u)) =>
        match mupdf_document u with
        | Ok doc => (Ok doc, set_handles S w)
        | Raise e => (Raise e, w)
        end
    | Some _ => (Raise (FileDataError pdf_path), w)
    | None => (Raise (FileNotFoundError pdf_path), w)
    end.

(** [doc.close()] *)
Definition doc_close : M unit :=
  fun w => (Ok tt, set_handles Nat.pred w).

(** ** [ocr_processor.py] *)

(** [for page in doc: pix = ..; img = ..; images.append(img)] *)
Fixpoint render_loop (zoom : float) (pages : list page) (images : list image)
  : M (list image) :=
  match pages with
  | [] => ret images
  | pg :: rest =>
      do pix <~ lift (get_pixmap pg zoom) ;;
      let img := PngImage pix in
      render_loop zoom rest (images ++ [img])
  end.

Definition pdf_to_page_images (pdf_path : path) (dpi : Z) : M (list image) :=
  do doc <~ fitz_open pdf_path ;;
  let images := [] in
  do zoom <~ lift (zoom_of_dpi dpi) ;;
  do images <~ render_loop zoom doc images ;;
  run doc_close ;;
  ret images.

(** [for page in doc: blocks = ..; regions = []; ..; all_pages.append(regions)] *)
Fixpoint page_loop (zoom : float) (pages : list page)
  (all_pages : list (list region)) : M (list (list region)) :=
  match pages with
  | [] => ret all_pages
  | pg :: rest =>
      do blocks <~ lift (get_text pg) ;;
      let regions := block_loop zoom blocks [] in
      page_loop zoom rest (all_pages ++ [regions])
  end.

Definition extract_text_regions (pdf_path : path) (dpi : Z)
  : M (list (list region)) :=
  do doc <~ fitz_open pdf_path ;;
  do zoom <~ lift (zoom_of_dpi dpi) ;;
  let all_pages := [] in
  do all_pages <~ page_loop zoom doc all_pages ;;
  run doc_close ;;
  ret all_pages.

Definition default_dpi : Z := 150.

Definition process_pdf (pdf_path : path) (dpi : Z)
  : M (list image * list (list region)) :=
  run print (LogRendering dpi) ;;
  do images <~ pdf_to_page_images pdf_path dpi ;;
  run print (LogExtracting (length images)) ;;
  do text_regions <~ extract_text_regions pdf_path dpi ;;
  run print (LogDone (list_sum (map (fun r => length r) text_regions))) ;;
  ret (images, text_regions).

(** ** File-system primitives *)

(** The node at a path; the working directory [[]] is always a directory. *)
Definition node_at (fs : gmap path node) (p : path) : option node :=
  match p with
  | [] => Some Dir
  | _ :: _ => fs !! p
  end.

(** [path.exists()] *)
Definition path_exists (p : path) : M bool :=
  fun w => (Ok (bool_decide (is_Some (node_at (files w) p))), w).

(** The walk of [Path.mkdir(parents=True, exist_ok=True)]: every missing
    component of [todo] below [base] becomes a directory; a component that
    is a regular file stops the walk, and the error names the directory
    that was to be made, [base ++ todo]. *)
Fixpoint mkdir_walk (base : path) (todo : list string) (fs : gmap path node)
  : result unit * gmap path node :=
  match todo with
  | [] => (Ok tt, fs)
  | c :: rest =>
      let p := base ++ [c] in
      match fs !! p with
      | Some Dir => mkdir_walk p rest fs
      | Some (File _) =>
          (Raise (match rest with
                  | [] => FileExistsError p
                  | _ :: _ => NotADirectoryError (p ++ rest)
                  end), fs)
      | None => mkdir_walk p rest (<[p := Dir]> fs)
      end
  end.

Definition mkdir_parents (p : path) : M unit :=
  fun w =>
    match mkdir_walk [] p (files w) with
    | (r, fs') => (r, set_files (fun _ => fs') w)
    end.

(** Create or truncate the file at [p] and write [c] to it: [open(p, "w")]
    followed by the write, and [image.save(p, "PNG")].  Every error of the
    model is one that [open] raises, before the file is created or
    truncated. *)
Definition write_file (p : path) (c : content) : M unit :=
  fun w =>
    match node_at (files w) (removelast p) with
    | None => (Raise (FileNotFoundError p), w)
    | Some (File _) => (Raise (NotADirectoryError p), w)
    | Some Dir =>
        match node_at (files w) p with
        | Some Dir => (Raise (IsADirectoryError p), w)
        | _ =>
            if bool_decide (p ∈ faults w) then (Raise (OSError p), w)
            else (Ok tt, set_files (fun fs => <[p := File c]> fs) w)
        end
    end.

(** [json.load(open(p, "r"))]: the file's content read back as the region
    list that [json.dump] wrote. *)
Definition read_json (p : path) : M (list region) :=
  fun w =>
    match node_at (files w) p with
    | Some (File (JsonFile rs)) => (Ok rs, w)
    | Some (File _) => (Raise (JSONDecodeError p), w)
    | Some Dir => (Raise (IsADirectoryError p), w)
    | None => (Raise (FileNotFoundError p), w)
    end.

(** The name of the entry [p] when it lies directly in [dir]. *)
Fixpoint child_name (dir p : path) : option string :=
  match dir, p with
  | [], [name] => Some name
  | d :: dir', c :: p' => if bool_decide (d = c) then child_name dir' p' else None
  | _, _ => None
  end.

(** The names of the entries of a directory. *)
Definition listdir (fs : gmap path node) (dir : path) : list string :=
  omap (fun kv => child_name dir (fst kv)) (map_to_list fs).

Definition starts_with (pre s : list ascii) : bool :=
  bool_decide (take (length pre) s = pre).

Definition ends_with (suf s : list ascii) : bool :=
  bool_decide (drop (length s - length suf) s = suf).

(** [fnmatch(name, "page_*.png")] *)
Definition glob_page_png (name : string) : bool :=
  let s := String.list_ascii_of_string name in
  (length (String.list_ascii_of_string "page_") + length (String.list_ascii_of_string ".png")
     <=? length s)%nat
  && starts_with (String.list_ascii_of_string "page_") s
  && ends_with (String.list_ascii_of_string ".png") s.

(** [dir.glob("page_*.png")] *)
Definition glob_pages (fs : gmap path node) (dir : path) : list string :=
  filter (fun name => glob_page_png name = true) (listdir fs dir).

(** [shutil.rmtree(dir)]: a directory goes with everything below it; a
    regular file is not removed. *)
Definition rmtree (dir : path) : M unit :=
  fun w =>
    match node_at (files w) dir with
    | Some Dir =>
        (Ok tt,
         set_files (fun fs => filter (fun kv => ¬ dir `prefix_of` fst kv) fs) w)
    | Some (File _) => (Raise (NotADirectoryError dir), w)
    | None => (Raise (FileNotFoundError dir), w)
    end.

(** [os.remove(p)] *)
Definition os_remove (p : path) : M unit :=
  fun w => (Ok tt, set_files (fun fs => delete p fs) w).

(** ** [ocr_storage.py] *)

(** [Path(__file__).parent / "ocr_data"] *)
Definition BASE_DIR : path := ["server"; "ocr_data"]%string.

(** [BASE_DIR / doc_id], for an identifier that is one path component, as
    [str(uuid.uuid4())] and a segment of a URL path are ([simple_id]
    below); an identifier with a "/" in it, or "", "." or "..", would name
    another directory than the child [doc_id] of [BASE_DIR]. *)
Definition _doc_dir (doc_id : string) : path := BASE_DIR ++ [doc_id].

(** [str(n)] for an [int] *)
Definition str_of_int (n : Z) : string := NilZero.string_of_int (Z.to_int n).

(** [f"page_{page_num}.png"] and [f"page_{page_num}.json"] *)
Definition page_png (page_num : Z) : string :=
  ("page_" +:+ str_of_int page_num +:+ ".png")%string.

Definition page_json (page_num : Z) : string :=
  ("page_" +:+ str_of_int page_num +:+ ".json")%string.

Definition create_document_storage (doc_id : string) : M path :=
  let doc_dir := _doc_dir doc_id in
  run mkdir_parents (doc_dir ++ ["pages"%string]) ;;
  run mkdir_parents (doc_dir ++ ["ocr"%string]) ;;
  ret doc_dir.

Definition save_page_image (doc_id : string) (page_num : Z) (img : image)
  : M path :=
  let path := _doc_dir doc_id ++ ["pages"%string] ++ [page_png page_num] in
  run write_file path (PngFile img) ;;
  ret path.

Definition save_page_ocr (doc_id : string) (page_num : Z)
  (ocr_result : list region) : M path :=
  let path := _doc_dir doc_id ++ ["ocr"%string] ++ [page_json page_num] in
  run write_file path (JsonFile ocr_result) ;;
  ret path.

Definition get_page_image_path (doc_id : string) (page_num : Z)
  : M (option path) :=
  let path := _doc_dir doc_id ++ ["pages"%string] ++ [page_png page_num] in
  do ex <~ path_exists path ;;
  if ex then ret (Some path) else ret None.

Definition get_page_ocr (doc_id : string) (page_num : Z)
  : M (option (list region)) :=
  let path := _doc_dir doc_id ++ ["ocr"%string] ++ [page_json page_num] in
  do ex <~ path_exists path ;;
  if negb ex then ret None
  else
    do rs <~ read_json path ;;
    ret (Some rs).

Definition get_page_count (doc_id : string) : M nat :=
  let pages_dir := _doc_dir doc_id ++ ["pages"%string] in
  do ex <~ path_exists pages_dir ;;
  if negb ex then ret 0%nat
  else fun w => (Ok (length (glob_pages (files w) pages_dir)), w).

Definition cleanup_document (doc_id : string) : M unit :=
  let doc_dir := _doc_dir doc_id in
  do ex <~ path_exists doc_dir ;;
  if ex then rmtree doc_dir else ret tt.

(** ** [main.py]: the [/convert] handler *)

Definition lower_ascii (c : ascii) : ascii :=
  let n := nat_of_ascii c in
  if ((65 <=? n) && (n <=? 90))%nat then ascii_of_nat (n + 32) else c.

(** [s.lower()] *)
Fixpoint lower (s : string) : string :=
  match s with
  | EmptyString => EmptyString
  | String c rest => String (lower_ascii c) (lower rest)
  end.

(** One call of the handler: the extension of the uploaded file's name
    ([os.path.splitext(file.filename)[1]]), its bytes, the name the
    operating system gives the temporary file, and the value [uuid.uuid4()]
    returns. *)
Record request := Request {
  req_suffix : string;
  req_file : upload;
  req_tmp_path : path;
  req_uuid : string
}.

Record response := Response {
  markdown : string;
  doc_id : option string;
  has_ocr : bool
}.

Inductive http_result : Type :=
| Returned (r : response)
| HTTPException (status_code : Z) (detail : exn).

(** [shutil.copyfileobj(file.file, tmp)] into the fresh temporary file,
    when the copy goes through ([failing_copy] below is the copy that
    raises). *)
Definition write_temp (p : path) (u : upload) : M unit :=
  fun w => (Ok tt, set_files (fun fs => <[p := File (UploadedFile u)]> fs) w).

(** [converter.convert(tmp_path)] and [result.document.export_to_markdown()] *)
Definition convert_to_markdown (p : path) : M string :=
  fun w =>
    match files w !! p with
    | Some (File (UploadedFile u)) => (docling_markdown u, w)
    | _ => (Raise (FileNotFoundError p), w)
    end.

(** [for i, (img, ocr_data) in enumerate(zip(images, ocr_results)): ...],
    [i] being the index of the first pair of [pairs]. *)
Fixpoint save_loop (doc_id : string) (i : Z)
  (pairs : list (image * list region)) : M unit :=
  match pairs with
  | [] => ret tt
  | (img, ocr_data) :: rest =>
      run save_page_image doc_id (i + 1) img ;;
      run save_page_ocr doc_id (i + 1) ocr_data ;;
      save_loop doc_id (i + 1) rest
  end.

(** The body of the inner [try] of the PDF branch; its value is the pair
    of the local variables [(doc_id, has_ocr)] at its end. *)
Definition ocr_try_body (req : request) : M (option string * bool) :=
  let doc_id := req_uuid req in
  run create_document_storage doc_id ;;
  do res <~ process_pdf (req_tmp_path req) default_dpi ;;
  let '(images, ocr_results) := res in
  run save_loop doc_id 0 (zip images ocr_results) ;;
  let has_ocr := true in
  run print (LogProcessed (length images) doc_id) ;;
  ret (Some doc_id, has_ocr).

(** The [except Exception as ocr_err] clause. *)
Definition ocr_except (ocr_err : exn) : M (option string * bool) :=
  run print (LogNonFatal ocr_err) ;;
  ret (None, false).

Definition convert_inner (req : request) : M response :=
  do markdown_content <~ convert_to_markdown (req_tmp_path req) ;;
  do ocr <~ (if bool_decide (lower (req_suffix req) = ".pdf"%string)
             then try_except (ocr_try_body req) ocr_except
             else ret (None, false)) ;;
  let '(doc_id, has_ocr) := ocr in
  ret {| markdown := markdown_content; doc_id := doc_id; has_ocr := has_ocr |}.

Definition remove_temp (p : path) : M unit :=
  do ex <~ path_exists p ;;
  if ex then os_remove p else ret tt.

Definition convert_document (req : request) (w : world) : http_result * world :=
  let body :=
    run write_temp (req_tmp_path req) (req_file req) ;;
    try_finally (convert_inner req) (remove_temp (req_tmp_path req))
  in
  match body w with
  | (Ok r, w') => (Returned r, w')
  | (Raise e, w') =>
      (HTTPException 500 e, set_stdout (fun out => out ++ [LogError e]) w')
  end.

(** ** Specification-side views of the loops *)

(** What one iteration of the span loop appends, if anything. *)
Definition region_of_span (zoom : float) (sp : span) : option region :=
  match strip (span_text sp) with
  | [] => None
  | c :: t =>
      let '(x0, y0, x1, y1) := span_bbox sp in
      Some {| bbox := [[fmul x0 zoom; fmul y0 zoom]; [fmul x1 zoom; fmul y0 zoom];
                       [fmul x1 zoom; fmul y1 zoom]; [fmul x0 zoom; fmul y1 zoom]];
              text := c :: t;
              confidence := f1 |}
  end.

(** The spans of the text blocks of a page, in block, line, span order. *)
Definition text_spans (blocks : list block) : list span :=
  flat_map (fun b => if block_type b =? 0
                     then flat_map line_spans (block_lines b) else [])
           blocks.

(** A page has no text block. *)
Definition no_text_blocks (blocks : list block) : Prop :=
  Forall (fun b => block_type b ≠ 0) blocks.

(** The first failure of a list of calls, or all their values. *)
Fixpoint sequence {A} (rs : list (result A)) : result (list A) :=
  match rs with
  | [] => Ok []
  | Ok a :: rest =>
      match sequence rest with
      | Ok l => Ok (a :: l)
      | Raise e => Raise e
      end
  | Raise e :: _ => Raise e
  end.

(** The document PyMuPDF opens at a path, when it does. *)
Definition readable_pdf (w : world) (pdf_path : path) (doc : document) : Prop :=
  ∃ u, files w !! pdf_path = Some (File (UploadedFile u))
       ∧ mupdf_document u = Ok doc.


(** The files of a page in the store. *)
Definition page_image_file (doc_id : string) (page_num : Z) : path :=
  _doc_dir doc_id ++ ["pages"%string] ++ [page_png page_num].

Definition page_ocr_file (doc_id : string) (page_num : Z) : path :=
  _doc_dir doc_id ++ ["ocr"%string] ++ [page_json page_num].

(** A path that is no page file numbered above [i]. *)
Definition not_page_above (d : string) (i : Z) (p : path) : Prop :=
  ∀ n, i < n → p ≠ page_image_file d n ∧ p ≠ page_ocr_file d n.

(** ** Doubling the resolution *)

(** A float that is not a subnormal number: zero, normal, infinite or NaN. *)
Definition not_subnormal (x : float) : Prop :=
  PrimFloat.classify x ≠ PSubn ∧ PrimFloat.classify x ≠ NSubn.

Definition regular_span (sp : span) : Prop :=
  let '(x0, y0, x1, y1) := span_bbox sp in
  not_subnormal x0 ∧ not_subnormal y0 ∧ not_subnormal x1 ∧ not_subnormal y1.

(** [2 * c] for every coordinate [c] of the polygon of a region. *)
Definition double_region (r : region) : region :=
  {| bbox := map (map (fmul f2)) (bbox r);
     text := text r;
     confidence := confidence r |}.

(** [150 / 72.0] and [300 / 72.0] *)
Definition zoom_150 : float := fdiv 150%float f72.
Definition zoom_300 : float := fdiv 300%float f72.

(** The last step of [binary_round_aux]: the rounded mantissa and exponent
    made into a number. *)
Definition round_finish (s : bool) (mrs : shr_record) (e : Z) : spec_float :=
  match shr_m mrs with
  | Z0 => S754_zero s
  | Zpos m => if e <=? emax - prec then S754_finite s m e else S754_infinity s
  | Zneg _ => S754_nan
  end.

(** ** Histories of the store *)

Inductive store_op : Type :=
| OpCreate (doc_id : string)
| OpSaveImage (doc_id : string) (page_num : Z) (img : image)
| OpSaveOcr (doc_id : string) (page_num : Z) (ocr_result : list region)
| OpCleanup (doc_id : string).

(** One call of the store, with its outcome. *)
Definition run_op (o : store_op) (w : world) : result unit * world :=
  match o with
  | OpCreate d => (run create_document_storage d ;; ret tt) w
  | OpSaveImage d n img => (run save_page_image d n img ;; ret tt) w
  | OpSaveOcr d n rs => (run save_page_ocr d n rs ;; ret tt) w
  | OpCleanup d => cleanup_document d w
  end.

(** The pages of each document for which an image was saved: a call of
    [save_page_image] that returned adds its page, a cleanup that found the
    document forgets its pages, nothing else counts. *)
Definition record_op (o : store_op) (w : world)
  (saved : gmap string (gset Z)) : gmap string (gset Z) :=
  match o with
  | OpSaveImage d n img =>
      match fst (run_op o w) with
      | Ok _ => <[d := {[n]} ∪ saved !!! d]> saved
      | Raise _ => saved
      end
  | OpCleanup d =>
      match node_at (files w) (_doc_dir d) with
      | Some Dir => delete d saved
      | _ => saved
      end
  | _ => saved
  end.

(** The store and the record of saved images after a sequence of calls;
    a call that raises leaves the disk as it was when it raised. *)
Fixpoint run_ops (ops : list store_op) (w : world)
  (saved : gmap string (gset Z)) : world * gmap string (gset Z) :=
  match ops with
  | [] => (w, saved)
  | o :: rest => run_ops rest (snd (run_op o w)) (record_op o w saved)
  end.


(** The world once the handler has copied the upload to its temporary file. *)
Definition with_temp (req : request) (w : world) : world :=
  set_files (fun fs => <[req_tmp_path req := File (UploadedFile (req_file req))]> fs) w.

(** A part of the extraction run of the handler raises [e], leaving the
    world [w_f]: the allocation of storage, the rasterizer, the extractor,
    or a page save. *)
Definition extraction_raises (req : request) (w : world) (e : exn)
  (w_f : world) : Prop :=
  create_document_storage (req_uuid req) w = (Raise e, w_f)
  ∨ (∃ dir w0,
       create_document_storage (req_uuid req) w = (Ok dir, w0)
       ∧ (pdf_to_page_images (req_tmp_path req) default_dpi
            (snd (print (LogRendering default_dpi) w0)) = (Raise e, w_f)
          ∨ (∃ images w1,
               pdf_to_page_images (req_tmp_path req) default_dpi
                 (snd (print (LogRendering default_dpi) w0)) = (Ok images, w1)
               ∧ extract_text_regions (req_tmp_path req) default_dpi
                   (snd (print (LogExtracting (length images)) w1))
                 = (Raise e, w_f))
          ∨ (∃ images ocr_results w1,
               process_pdf (req_tmp_path req) default_dpi w0
               = (Ok (images, ocr_results), w1)
               ∧ save_loop (req_uuid req) 0 (zip images ocr_results) w1
                 = (Raise e, w_f)))).

(** ** Sample data: the spec's three-page scenario *)

Module Sample.

(** "Hello World" at (72,72)-(216,86). *)
Definition hello : span :=
  {| span_text := [72; 101; 108; 108; 111; 32; 87; 111; 114; 108; 100]%N;
     span_bbox := (72, 72, 216, 86)%float |}.

(** A span of blanks only. *)
Definition blank : span :=
  {| span_text := [32; 9; 160]%N; span_bbox := (10, 20, 30, 40)%float |}.

Definition blank_pixmap : pixmap :=
  {| pix_width := 1275; pix_height := 1650; pix_samples := [] |}.

Definition page1 : page :=
  {| get_pixmap := fun _ => Ok blank_pixmap;
     get_text := Ok [Block 0 [Line [hello; blank]]; Block 1 []] |}.

(** A page whose only content is an image. *)
Definition page2 : page :=
  {| get_pixmap := fun _ => Ok blank_pixmap;
     get_text := Ok [Block 1 []] |}.

Definition page3 : page :=
  {| get_pixmap := fun _ => Ok blank_pixmap; get_text := Ok [] |}.

(** A page MuPDF cannot render or walk. *)
Definition broken_page : page :=
  {| get_pixmap := fun _ => Raise (MuPDFError "cannot render page");
     get_text := Raise (MuPDFError "cannot load page") |}.

Definition pdf : upload :=
  {| docling_markdown := Ok "# Hello World"%string;
     mupdf_document := Ok [page1; page2; page3] |}.

Definition broken_pdf : upload :=
  {| docling_markdown := Ok "# Hello World"%string;
     mupdf_document := Ok [page1; broken_page] |}.

Definition pdf_path : path := ["tmp"; "upload.pdf"]%string.

Definition empty_world : world :=
  {| files := ∅; faults := ∅; handles := 0; stdout := [] |}.

Definition world_with (u : upload) : world :=
  {| files := {[ pdf_path := File (UploadedFile u) ]};
     faults := ∅; handles := 0; stdout := [] |}.

(** The store after [create_document_storage "doc-1"] on an empty disk. *)
Definition allocated : world :=
  snd (create_document_storage "doc-1" empty_world).

(** What the extractor makes of [hello] at 150 dpi. *)
Definition hello_region : region :=
  {| bbox := [[150; 150]; [0x1.c200000000001p+8; 150];
              [0x1.c200000000001p+8; 0x1.6655555555556p+7];
              [150; 0x1.6655555555556p+7]]%float;
     text := [72; 101; 108; 108; 111; 32; 87; 111; 114; 108; 100]%N;
     confidence := 1%float |}.

(** An upload of [broken_pdf], named "scan.PDF". *)
Definition broken_request : request :=
  {| req_suffix := ".PDF"; req_file := broken_pdf;
     req_tmp_path := pdf_path; req_uuid := "doc-1" |}.

(** An upload of [pdf], named "letter.pdf". *)
Definition good_request : request :=
  {| req_suffix := ".pdf"; req_file := pdf;
     req_tmp_path := pdf_path; req_uuid := "doc-1" |}.

(** A disk that refuses the region file of page 2 of "doc-1". *)
Definition failing_disk : world :=
  {| files := ∅; faults := {[ page_ocr_file "doc-1" 2 ]};
     handles := 0; stdout := [] |}.

(** A history in which images and regions diverge: two images, one region
    list, for "doc-1"; "doc-2" is allocated and cleaned up again. *)
Definition history : list store_op :=
  [OpCreate "doc-1";
   OpSaveImage "doc-1" 2 (PngImage blank_pixmap);
   OpSaveImage "doc-1" 1 (PngImage blank_pixmap);
   OpSaveOcr "doc-1" 1 [hello_region];
   OpSaveImage "doc-1" 2 (PngImage blank_pixmap);
   OpCreate "doc-2";
   OpSaveImage "doc-2" 1 (PngImage blank_pixmap);
   OpCleanup "doc-2"].

(** A one-page PDF with a span whose left edge is the subnormal number
    5 * 2^-1074 (about 2.47e-323). *)
Definition tiny_span : span :=
  {| span_text := [120]%N; span_bbox := (0x5p-1074, 72, 216, 86)%float |}.

Definition tiny_pdf : upload :=
  {| docling_markdown := Ok "x"%string;
     mupdf_document :=
       Ok [{| get_pixmap := fun _ => Ok blank_pixmap;
              get_text := Ok [Block 0 [Line [tiny_span]]] |}] |}.

(** The first coordinate of the first region of the first page. *)
Definition first_x (pages : list (list region)) : float :=
  match pages with
  | (r :: _) :: _ =>
      match bbox r with
      | (x :: _) :: _ => x
      | _ => PrimFloat.nan
      end
  | _ => PrimFloat.nan
  end.

(** What [process_pdf] returns for [pdf]. *)
Definition images : list image :=
  [PngImage blank_pixmap; PngImage blank_pixmap; PngImage blank_pixmap].

Definition ocr_results : list (list region) := [[hello_region]; []; []].

End Sample.

(** ** [main.py]: the read endpoints *)



(** What a read endpoint answers: the value it returns, the
    [HTTPException(status_code=404, detail=...)] it raises, or an exception
    of the store that it lets through. *)
Inductive endpoint_result (A : Type) : Type :=
| Reply (a : A)
| HTTP404 (detail : string)
| Unhandled (e : exn).

Arguments Reply {A} a.
Arguments HTTP404 {A} detail.
Arguments Unhandled {A} e.



(** The value is the [page_count] of the body [{"page_count": count}]. *)
Definition get_page_count_endpoint (doc_id : string) (w : world)
  : endpoint_result nat * world :=
  match get_page_count doc_id w with
  | (Ok count, w') =>
      if (count =? 0)%nat then (HTTP404 "Document not found", w')
      else (Reply count, w')
  | (Raise e, w') => (Unhandled e, w')
  end.

(** ** Shapes of the disk *)


(** Nothing is stored at or below the directory of [doc_id]. *)
Definition fresh_doc (fs : gmap path node) (doc_id : string) : Prop :=
  ∀ p, _doc_dir doc_id `prefix_of` p → fs !! p = None.

(** No regular file sits where a directory of the store root goes. *)
Definition root_clear (fs : gmap path node) : Prop :=
  ∀ k c, fs !! take k BASE_DIR ≠ Some (File c).

(** Neither path lies at or below the other. *)
Definition apart (p q : path) : Prop :=
  ¬ p `prefix_of` q ∧ ¬ q `prefix_of` p.


(** The block is a text block. *)
Definition is_text_block (b : block) : bool := block_type b =? 0.

(** A page all of whose calls succeed at the given zoom. *)
Definition page_ok (zoom : float) (pg : page) : Prop :=
  (∃ pix, get_pixmap pg zoom = Ok pix) ∧ (∃ blocks, get_text pg = Ok blocks).

(** ** Trimmed text *)

(** A string of white space only, the empty string included: the strings
    [s] with [not s.strip()]. *)
Definition blank (s : pystr) : bool := forallb is_space s.

(** [t] is [s] without its leading and its trailing white space: [s] is
    [t] between two runs of white space, and [t] neither begins nor ends
    with white space. *)
Definition trimmed_of (s t : pystr) : Prop :=
  ∃ pre suf,
    s = pre ++ t ++ suf
    ∧ blank pre = true ∧ blank suf = true
    ∧ (∀ c, head t = Some c → is_space c = false)
    ∧ (∀ c, last t = Some c → is_space c = false).

(** The spans of a page that have something to show: those of its text
    blocks whose text is not blank, in block, line, span order. *)
Definition inked_spans (blocks : list block) : list span :=
  filter (fun sp => blank (span_text sp) = false) (text_spans blocks).

(** ** Single-precision coordinates *)

(** A binary64 number that is also a binary32 number, as the coordinates
    PyMuPDF hands over are (MuPDF keeps them in C [float]s): a zero, an
    infinity, a NaN, or [m * 2^e] that is within the range of binary32
    ([e + 53 <= 128]) and a multiple of the binary32 unit of its binade,
    [2^(e + 29)] but never less than [2^-149]. *)
Definition single_precision (x : float) : bool :=
  match Prim2SF x with
  | S754_finite _ m e =>
      (e <=? 75) && (Z.pos m mod 2 ^ (Z.max (e + 29) (-149) - e) =? 0)
  | _ => true
  end.

Definition single_precision_span (sp : span) : bool :=
  let '(x0, y0, x1, y1) := span_bbox sp in
  single_precision x0 && single_precision y0
  && single_precision x1 && single_precision y1.

(** ** Document identifiers *)


(** ** The copy of the upload *)

(** [shutil.copyfileobj(file.file, tmp)] raising [e] (lines 75-77): the
    file that [NamedTemporaryFile(delete=False)] created stays, with the
    bytes written so far, [partial]. *)
Definition failing_copy (p : path) (partial : upload) (e : exn) : M unit :=
  fun w =>
    (Raise e, set_files (fun fs => <[p := File (UploadedFile partial)]> fs) w).

(** The handler with the copy of the upload as a parameter;
    [convert_document] is the handler whose copy goes through,
    [convert_document_with (write_temp ..)]. *)
Definition convert_document_with (copy : M unit) (req : request) (w : world)
  : http_result * world :=
  let body :=
    run copy ;;
    try_finally (convert_inner req) (remove_temp (req_tmp_path req))
  in
  match body w with
  | (Ok r, w') => (Returned r, w')
  | (Raise e, w') =>
      (HTTPException 500 e, set_stdout (fun out => out ++ [LogError e]) w')
  end.

(** ** More sample data *)

Module Fixture.


(** An upload Docling cannot convert. *)
Definition unconvertible_request : request :=
  {| req_suffix := ".pdf";
     req_file := {| docling_markdown := Raise (ConversionError "unsupported");
                    mupdf_document := Ok [Sample.page1] |};
     req_tmp_path := Sample.pdf_path;
     req_uuid := "doc-9" |}.

(** "  Dear Sir" followed by a no-break space and a line feed, at
    (72,100)-(180,114). *)
Definition padded : span :=
  {| span_text := [32; 32; 68; 101; 97; 114; 32; 83; 105; 114; 160; 10]%N;
     span_bbox := (72, 100, 180, 114)%float |}.

(** A page with a padded span, a blank span and a plain one, and an image
    block between two text blocks. *)
Definition padded_page : page :=
  {| get_pixmap := fun _ => Ok Sample.blank_pixmap;
     get_text := Ok [Block 0 [Line [padded; Sample.blank]];
                     Block 1 [];
                     Block 0 [Line [Sample.hello]]] |}.

Definition padded_pdf : upload :=
  {| docling_markdown := Ok "Dear Sir"%string;
     mupdf_document := Ok [padded_page; Sample.page2] |}.

(** What the extractor makes of [padded] at 150 dpi. *)
Definition padded_region : region :=
  {| bbox := [[150; 0x1.a0aaaaaaaaaabp+7]; [375; 0x1.a0aaaaaaaaaabp+7];
              [375; 0x1.db00000000001p+7]; [150; 0x1.db00000000001p+7]]%float;
     text := [68; 101; 97; 114; 32; 83; 105; 114]%N;
     confidence := 1%float |}.


(** The store after a whole upload of [Sample.pdf]. *)
Definition uploaded : world :=
  snd (convert_document Sample.good_request Sample.empty_world).

End Fixture.
(** * Theorems *)

(** ** The extraction loops *)

Lemma span_loop_omap zoom spans regions :
  span_loop zoom spans regions = regions ++ omap (region_of_span zoom) spans.
Proof.
  revert regions.
  induction spans as [|sp rest IH]; intros regions; simpl.
  - by rewrite app_nil_r.
  - unfold region_of_span.
    destruct (strip (span_text sp)) as [|c t]; [apply IH|].
    destruct (span_bbox sp) as [[[x0 y0] x1] y1].
    by rewrite IH, <- app_assoc.
Qed.

Lemma line_loop_omap zoom lines regions :
  line_loop zoom lines regions
  = regions ++ omap (region_of_span zoom) (flat_map line_spans lines).
Proof.
  revert regions.
  induction lines as [|ln rest IH]; intros regions; simpl.
  - by rewrite app_nil_r.
  - by rewrite IH, span_loop_omap, omap_app, app_assoc.
Qed.

Lemma block_loop_omap zoom blocks regions :
  block_loop zoom blocks regions
  = regions ++ omap (region_of_span zoom) (text_spans blocks).
Proof.
  revert regions.
  induction blocks as [|b rest IH]; intros regions; simpl.
  - by rewrite app_nil_r.
  - destruct (block_type b =? 0) eqn:Hty; simpl.
    + by rewrite IH, line_loop_omap, omap_app, app_assoc.
    + apply IH.
Qed.

Lemma page_loop_sequence zoom pages all_pages w :
  page_loop zoom pages all_pages w
  = (match sequence (map get_text pages) with
     | Ok bss => Ok (all_pages ++ map (fun bs => block_loop zoom bs []) bss)
     | Raise e => Raise e
     end, w).
Proof.
  revert all_pages.
  induction pages as [|pg rest IH]; intros all_pages; simpl.
  - by rewrite app_nil_r.
  - unfold bind, lift. destruct (get_text pg) as [bs|e]; [|done].
    rewrite IH. destruct (sequence (map get_text rest)); [|done].
    by rewrite <- app_assoc.
Qed.

Lemma render_loop_sequence zoom pages images w :
  render_loop zoom pages images w
  = (match sequence (map (fun pg => get_pixmap pg zoom) pages) with
     | Ok pixs => Ok (images ++ map PngImage pixs)
     | Raise e => Raise e
     end, w).
Proof.
  revert images.
  induction pages as [|pg rest IH]; intros images; simpl.
  - by rewrite app_nil_r.
  - unfold bind, lift. destruct (get_pixmap pg zoom) as [pix|e]; [|done].
    rewrite IH. destruct (sequence _); [|done].
    by rewrite <- app_assoc.
Qed.

Lemma sequence_Ok_length {A} (rs : list (result A)) l :
  sequence rs = Ok l → length l = length rs.
Proof.
  revert l. induction rs as [|[a|e] rest IH]; intros l H; simpl in *.
  - by inversion H.
  - destruct (sequence rest) as [l'|]; [|done].
    inversion H; subst. simpl. f_equal. by apply IH.
  - done.
Qed.

Lemma sequence_Ok_lookup {A} (rs : list (result A)) l i a :
  sequence rs = Ok l → (rs !! i = Some (Ok a) ↔ l !! i = Some a).
Proof.
  revert l i. induction rs as [|[b|e] rest IH]; intros l i H; simpl in *.
  - inversion H; subst. by rewrite !lookup_nil.
  - destruct (sequence rest) as [l'|] eqn:Hs; [|done].
    inversion H; subst. destruct i as [|i]; simpl.
    + split; intros [= ->]; done.
    + by apply IH.
  - done.
Qed.

Lemma sequence_all_Ok {A} (rs : list (result A)) :
  Forall (fun r => ∃ a, r = Ok a) rs → ∃ l, sequence rs = Ok l.
Proof.
  induction 1 as [|r rest [a ->] _ [l IH]]; simpl.
  - by eexists.
  - rewrite IH. by eexists.
Qed.

(** The extractor, case by case: which call fails first, or the value. *)
Lemma extract_text_regions_unfold pdf_path dpi w :
  extract_text_regions pdf_path dpi w
  = match fitz_open pdf_path w with
    | (Raise e, w1) => (Raise e, w1)
    | (Ok doc, w1) =>
        match zoom_of_dpi dpi with
        | Raise e => (Raise e, w1)
        | Ok zoom =>
            match sequence (map get_text doc) with
            | Raise e => (Raise e, w1)
            | Ok bss =>
                (Ok (map (fun bs => omap (region_of_span zoom) (text_spans bs)) bss),
                 set_handles Nat.pred w1)
            end
        end
    end.
Proof.
  unfold extract_text_regions, bind at 1.
  destruct (fitz_open pdf_path w) as [[doc|e] w1]; [|done].
  unfold bind at 1, lift. destruct (zoom_of_dpi dpi) as [zoom|e]; [|done].
  unfold bind at 1. rewrite page_loop_sequence.
  destruct (sequence (map get_text doc)) as [bss|e]; [|done].
  unfold bind, doc_close, ret. simpl. do 2 f_equal.
  apply map_ext; intros bs. by rewrite block_loop_omap.
Qed.

Lemma pdf_to_page_images_unfold pdf_path dpi w :
  pdf_to_page_images pdf_path dpi w
  = match fitz_open pdf_path w with
    | (Raise e, w1) => (Raise e, w1)
    | (Ok doc, w1) =>
        match zoom_of_dpi dpi with
        | Raise e => (Raise e, w1)
        | Ok zoom =>
            match sequence (map (fun pg => get_pixmap pg zoom) doc) with
            | Raise e => (Raise e, w1)
            | Ok pixs => (Ok (map PngImage pixs), set_handles Nat.pred w1)
            end
        end
    end.
Proof.
  unfold pdf_to_page_images, bind at 1.
  destruct (fitz_open pdf_path w) as [[doc|e] w1]; [|done].
  unfold bind at 1, lift. destruct (zoom_of_dpi dpi) as [zoom|e]; [|done].
  unfold bind at 1. rewrite render_loop_sequence.
  by destruct (sequence _) as [pixs|e].
Qed.

Lemma fitz_open_Ok pdf_path w doc w1 :
  fitz_open pdf_path w = (Ok doc, w1) ↔
  readable_pdf w pdf_path doc ∧ w1 = set_handles S w.
Proof.
  unfold fitz_open, readable_pdf. split.
  - destruct (files w !! pdf_path) as [[|[img|rs|u]]|] eqn:Hf; try done.
    destruct (mupdf_document u) eqn:Hu; [|done].
    intros [= <- <-]. split; [|done]. by exists u.
  - intros [(u & -> & ->) ->]. done.
Qed.

(** ** Regions and spans *)

Lemma region_of_span_Some zoom sp r :
  region_of_span zoom sp = Some r →
  ∃ x0 y0 x1 y1,
    span_bbox sp = (x0, y0, x1, y1)
    ∧ bbox r = [[fmul x0 zoom; fmul y0 zoom]; [fmul x1 zoom; fmul y0 zoom];
                [fmul x1 zoom; fmul y1 zoom]; [fmul x0 zoom; fmul y1 zoom]]
    ∧ text r = strip (span_text sp)
    ∧ text r ≠ []
    ∧ confidence r = f1.
Proof.
  unfold region_of_span.
  destruct (strip (span_text sp)) as [|c t]; [done|].
  destruct (span_bbox sp) as [[[x0 y0] x1] y1].
  intros [= <-]. by exists x0, y0, x1, y1.
Qed.

Lemma region_of_span_None zoom sp :
  region_of_span zoom sp = None ↔ strip (span_text sp) = [].
Proof.
  unfold region_of_span.
  destruct (strip (span_text sp)) as [|c t]; [done|].
  by destruct (span_bbox sp) as [[[x0 y0] x1] y1].
Qed.


Lemma extract_sample_pdf :
  extract_text_regions Sample.pdf_path 150 (Sample.world_with Sample.pdf)
  = (Ok [[Sample.hello_region]; []; []], Sample.world_with Sample.pdf).
Proof. vm_compute. reflexivity. Qed.

Lemma sequence_Ok_Forall2 {A B} (f : A → result B) (l : list A) (k : list B) :
  sequence (map f l) = Ok k → Forall2 (fun a b => f a = Ok b) l k.
Proof.
  revert k. induction l as [|a l IH]; intros k H; simpl in H.
  - injection H as <-. constructor.
  - destruct (f a) as [b|e] eqn:Hfa; [|done].
    destruct (sequence (map f l)) as [k'|]; [|done].
    injection H as <-. constructor; [done|]. by apply IH.
Qed.

Lemma omap_region_texts zoom spans :
  map text (omap (region_of_span zoom) spans)
  = filter (fun t => t ≠ []) (map (fun sp => strip (span_text sp)) spans).
Proof.
  induction spans as [|sp rest IH]; [done|].
  change (omap (region_of_span zoom) (sp :: rest))
    with (match region_of_span zoom sp with
          | Some r => r :: omap (region_of_span zoom) rest
          | None => omap (region_of_span zoom) rest
          end).
  change (map (fun sp => strip (span_text sp)) (sp :: rest))
    with (strip (span_text sp) :: map (fun sp => strip (span_text sp)) rest).
  rewrite filter_cons.
  destruct (region_of_span zoom sp) as [r|] eqn:Hr.
  - apply region_of_span_Some in Hr as (? & ? & ? & ? & _ & _ & Ht & Hne & _).
    rewrite <- Ht. rewrite decide_True by done. simpl. by rewrite IH.
  - apply region_of_span_None in Hr. rewrite Hr.
    rewrite decide_False by (intros H; by apply H). done.
Qed.

Lemma set_handles_pred_S w : set_handles Nat.pred (set_handles S w) = w.
Proof. by destruct w. Qed.

(** ** Trimming *)

Lemma blank_app (s t : pystr) : blank (s ++ t) = blank s && blank t.
Proof. apply forallb_app. Qed.

Lemma blank_rev (s : pystr) : blank (rev s) = blank s.
Proof.
  apply eq_true_iff_eq. unfold blank. rewrite !forallb_forall.
  split; intros H c Hc; apply H; by apply in_rev in Hc || apply in_rev.
Qed.

Lemma last_rev {A} (l : list A) : last (rev l) = head l.
Proof. destruct l as [|a l]; [done|]. simpl. apply last_snoc. Qed.

Lemma lstrip_spec s :
  ∃ pre, s = pre ++ lstrip s ∧ blank pre = true
         ∧ ∀ c, head (lstrip s) = Some c → is_space c = false.
Proof.
  induction s as [|c s (pre & Heq & Hb & Hh)]; simpl.
  - by exists [].
  - destruct (is_space c) eqn:Hc.
    + exists (c :: pre). simpl. rewrite Hc. split; [congruence|done].
    + exists []. split; [done|]. split; [done|]. by intros c' [= <-].
Qed.

Lemma rstrip_spec s :
  ∃ suf, s = rstrip s ++ suf ∧ blank suf = true
         ∧ ∀ c, last (rstrip s) = Some c → is_space c = false.
Proof.
  unfold rstrip. destruct (lstrip_spec (rev s)) as (pre & Heq & Hb & Hh).
  exists (rev pre). split; [|split].
  - rewrite <- rev_app_distr, <- Heq. by rewrite rev_involutive.
  - by rewrite blank_rev.
  - intros c. rewrite last_rev. apply Hh.
Qed.

(** [s.strip()] is [s] without its leading and trailing white space. *)
Lemma strip_trimmed s : trimmed_of s (strip s).
Proof.
  unfold strip. destruct (lstrip_spec s) as (pre & Heq & Hpre & Hhead).
  destruct (rstrip_spec (lstrip s)) as (suf & Heq' & Hsuf & Hlast).
  exists pre, suf. split; [by rewrite <- Heq'|].
  split; [done|]. split; [done|]. split; [|done].
  intros c Hc. apply Hhead. rewrite Heq'.
  by destruct (rstrip (lstrip s)).
Qed.

Lemma trimmed_of_nil s : trimmed_of s [] ↔ blank s = true.
Proof.
  split.
  - intros (pre & suf & -> & Hpre & Hsuf & _). simpl.
    by rewrite blank_app, Hpre, Hsuf.
  - intros Hs. exists s, []. by rewrite app_nil_r.
Qed.

Lemma lstrip_blank s : blank s = true → lstrip s = [].
Proof.
  induction s as [|c s IH]; [done|]. simpl.
  destruct (is_space c); [exact IH|done].
Qed.

Lemma strip_nil_blank s : strip s = [] ↔ blank s = true.
Proof.
  split.
  - intros H. apply trimmed_of_nil. rewrite <- H. apply strip_trimmed.
  - intros H. unfold strip. by rewrite lstrip_blank.
Qed.

(** The regions of a list of spans are those of its spans that are not
    blank, one each and in the same order. *)
Lemma omap_region_of_span_inked zoom spans :
  Forall2 (fun sp r => region_of_span zoom sp = Some r)
    (filter (fun sp => blank (span_text sp) = false) spans)
    (omap (region_of_span zoom) spans).
Proof.
  induction spans as [|sp rest IH]; [constructor|].
  rewrite filter_cons. cbn [omap list_omap].
  destruct (region_of_span zoom sp) as [r|] eqn:Hr.
  - rewrite decide_True; [by constructor|].
    apply not_true_is_false. intros Hb%strip_nil_blank.
    apply (proj2 (region_of_span_None zoom sp)) in Hb. congruence.
  - rewrite decide_False; [done|].
    apply (proj1 (region_of_span_None zoom sp)), strip_nil_blank in Hr.
    congruence.
Qed.

(** Page by page and region by region, where the output of the extractor
    comes from. *)
Lemma extract_text_regions_pages pdf_path dpi w all_pages w' :
  extract_text_regions pdf_path dpi w = (Ok all_pages, w') →
  ∃ zoom doc,
    zoom_of_dpi dpi = Ok zoom ∧ readable_pdf w pdf_path doc
    ∧ Forall2 (fun pg regions =>
                 ∃ blocks, get_text pg = Ok blocks
                   ∧ Forall2 (fun sp r => region_of_span zoom sp = Some r)
                       (inked_spans blocks) regions)
        doc all_pages.
Proof.
  rewrite extract_text_regions_unfold.
  destruct (fitz_open pdf_path w) as [[doc|e] w1] eqn:Hopen; [|done].
  apply fitz_open_Ok in Hopen as [Hdoc ->].
  destruct (zoom_of_dpi dpi) as [zoom|e]; [|done].
  destruct (sequence (map get_text doc)) as [bss|e] eqn:Hseq; [|done].
  intros [= <- <-]. exists zoom, doc. split; [done|]. split; [done|].
  apply sequence_Ok_Forall2 in Hseq. clear Hdoc.
  induction Hseq as [|pg bs doc' bss' Hpg _ IH]; simpl; constructor; [|done].
  exists bs. split; [done|]. apply omap_region_of_span_inked.
Qed.

(** C1. The regions of a page are, one each and in order, those of the
    spans of its text blocks that are not blank; the region of a span with
    native bounding box (x0, y0, x1, y1) carries that span's trimmed text,
    the polygon [[x0*s, y0*s], [x1*s, y0*s], [x1*s, y1*s], [x0*s, y1*s]]
    with s = dpi / 72.0, in that corner order, and the confidence 1.0. *)
Theorem extract_bbox_polygon_confidence pdf_path dpi w all_pages w' :
  extract_text_regions pdf_path dpi w = (Ok all_pages, w') →
  ∃ dpi_float s doc,
    float_of_int dpi = Ok dpi_float ∧ s = fdiv dpi_float f72
    ∧ readable_pdf w pdf_path doc
    ∧ Forall2 (fun pg regions =>
                 ∃ blocks, get_text pg = Ok blocks
                   ∧ Forall2 (fun sp r =>
                        trimmed_of (span_text sp) (text r)
                        ∧ confidence r = f1
                        ∧ ∀ x0 y0 x1 y1, span_bbox sp = (x0, y0, x1, y1) →
                            bbox r = [[fmul x0 s; fmul y0 s];
                                      [fmul x1 s; fmul y0 s];
                                      [fmul x1 s; fmul y1 s];
                                      [fmul x0 s; fmul y1 s]])
                       (inked_spans blocks) regions)
        doc all_pages.
Proof.
  intros Hex.
  destruct (extract_text_regions_pages _ _ _ _ _ Hex)
    as (zoom & doc & Hz & Hdoc & Hpages).
  unfold zoom_of_dpi in Hz.
  destruct (float_of_int dpi) as [d|e] eqn:Hd; [|done].
  injection Hz as <-.
  exists d, (fdiv d f72), doc. repeat split; try done.
  eapply Forall2_impl; [exact Hpages|].
  intros pg regions (blocks & Htxt & Hregions). exists blocks. split; [done|].
  eapply Forall2_impl; [exact Hregions|].
  intros sp r Hr.
  apply region_of_span_Some in Hr as (x0 & y0 & x1 & y1 & Hb & Hpoly & Ht & _ & Hc).
  split; [rewrite Ht; apply strip_trimmed|]. split; [done|].
  intros ? ? ? ? Hb'. rewrite Hb in Hb'. by injection Hb' as <- <- <- <-.
Qed.

Lemma extract_bbox_polygon_confidence_witness :
  ∃ dpi_float s doc,
    float_of_int 150 = Ok dpi_float ∧ s = fdiv dpi_float f72
    ∧ readable_pdf (Sample.world_with Fixture.padded_pdf) Sample.pdf_path doc
    ∧ Forall2 (fun pg regions =>
                 ∃ blocks, get_text pg = Ok blocks
                   ∧ Forall2 (fun sp r =>
                        trimmed_of (span_text sp) (text r)
                        ∧ confidence r = f1
                        ∧ ∀ x0 y0 x1 y1, span_bbox sp = (x0, y0, x1, y1) →
                            bbox r = [[fmul x0 s; fmul y0 s];
                                      [fmul x1 s; fmul y0 s];
                                      [fmul x1 s; fmul y1 s];
                                      [fmul x0 s; fmul y1 s]])
                       (inked_spans blocks) regions)
        doc [[Fixture.padded_region; Sample.hello_region]; []].
Proof.
  apply (extract_bbox_polygon_confidence Sample.pdf_path 150
           (Sample.world_with Fixture.padded_pdf)
           [[Fixture.padded_region; Sample.hello_region]; []]
           (Sample.world_with Fixture.padded_pdf)).
  vm_compute. reflexivity.
Defined.

(** C4. The regions of a page are, one each and in order, those of the
    spans of its text blocks that are not blank; the text of a region is
    the text of its span without the leading and trailing white space, and
    is never empty; the spans left out are exactly those whose trimmed text
    is empty. *)
Theorem extract_text_trimmed_nonempty pdf_path dpi w all_pages w' :
  extract_text_regions pdf_path dpi w = (Ok all_pages, w') →
  ∃ doc,
    readable_pdf w pdf_path doc
    ∧ Forall2 (fun pg regions =>
                 ∃ blocks, get_text pg = Ok blocks
                   ∧ Forall2 (fun sp r =>
                        trimmed_of (span_text sp) (text r) ∧ text r ≠ [])
                       (inked_spans blocks) regions
                   ∧ ∀ sp, sp ∈ text_spans blocks →
                       (sp ∈ inked_spans blocks
                        ↔ ¬ trimmed_of (span_text sp) []))
        doc all_pages.
Proof.
  intros Hex.
  destruct (extract_text_regions_pages _ _ _ _ _ Hex)
    as (zoom & doc & _ & Hdoc & Hpages).
  exists doc. split; [done|].
  eapply Forall2_impl; [exact Hpages|].
  intros pg regions (blocks & Htxt & Hregions). exists blocks.
  split; [done|]. split.
  - eapply Forall2_impl; [exact Hregions|].
    intros sp r Hr.
    apply region_of_span_Some in Hr as (? & ? & ? & ? & _ & _ & Ht & Hne & _).
    split; [rewrite Ht; apply strip_trimmed|done].
  - intros sp Hsp. unfold inked_spans.
    rewrite list_elem_of_filter, trimmed_of_nil.
    destruct (blank (span_text sp)).
    + split; [by intros [? _]|intros H; by destruct H].
    + split; [by intros _ ?|by intros _].
Qed.

Lemma extract_text_trimmed_nonempty_witness :
  ∃ doc,
    readable_pdf (Sample.world_with Fixture.padded_pdf) Sample.pdf_path doc
    ∧ Forall2 (fun pg regions =>
                 ∃ blocks, get_text pg = Ok blocks
                   ∧ Forall2 (fun sp r =>
                        trimmed_of (span_text sp) (text r) ∧ text r ≠ [])
                       (inked_spans blocks) regions
                   ∧ ∀ sp, sp ∈ text_spans blocks →
                       (sp ∈ inked_spans blocks
                        ↔ ¬ trimmed_of (span_text sp) []))
        doc [[Fixture.padded_region; Sample.hello_region]; []].
Proof.
  apply (extract_text_trimmed_nonempty Sample.pdf_path 150
           (Sample.world_with Fixture.padded_pdf) _
           (Sample.world_with Fixture.padded_pdf)).
  vm_compute. reflexivity.
Defined.

Lemma text_spans_no_text_blocks blocks :
  no_text_blocks blocks → text_spans blocks = [].
Proof.
  induction 1 as [|b rest Hb _ IH]; [done|].
  simpl. destruct (block_type b =? 0) eqn:Hty; [lia|]. done.
Qed.

(** C2. For a readable PDF of P pages, the rasterizer returns P images and
    the extractor P region lists; a page with no text block has the empty
    region list at its own position. *)
Theorem page_counts_agree pdf_path dpi w doc zoom :
  readable_pdf w pdf_path doc →
  zoom_of_dpi dpi = Ok zoom →
  Forall (fun pg => ∃ pix, get_pixmap pg zoom = Ok pix) doc →
  Forall (fun pg => ∃ blocks, get_text pg = Ok blocks) doc →
  ∃ images all_pages,
    pdf_to_page_images pdf_path dpi w = (Ok images, w)
    ∧ extract_text_regions pdf_path dpi w = (Ok all_pages, w)
    ∧ length images = length doc
    ∧ length all_pages = length doc
    ∧ ∀ i pg blocks,
        doc !! i = Some pg → get_text pg = Ok blocks →
        no_text_blocks blocks → all_pages !! i = Some [].
Proof.
  intros Hdoc Hzoom Hpix Htxt.
  assert (Hopen : fitz_open pdf_path w = (Ok doc, set_handles S w))
    by by apply fitz_open_Ok.
  destruct (sequence_all_Ok (map (fun pg => get_pixmap pg zoom) doc))
    as [pixs Hpixs].
  { apply Forall_fmap. eapply Forall_impl; [exact Hpix|]. intros pg [pix H]. by exists pix. }
  destruct (sequence_all_Ok (map get_text doc)) as [bss Hbss].
  { apply Forall_fmap. eapply Forall_impl; [exact Htxt|]. intros pg [bs H]. by exists bs. }
  exists (map PngImage pixs),
         (map (fun bs => omap (region_of_span zoom) (text_spans bs)) bss).
  rewrite pdf_to_page_images_unfold, extract_text_regions_unfold.
  rewrite Hopen, Hzoom, Hpixs, Hbss, set_handles_pred_S.
  repeat split.
  - rewrite length_map. apply sequence_Ok_length in Hpixs.
    by rewrite Hpixs, length_map.
  - rewrite length_map. apply sequence_Ok_length in Hbss.
    by rewrite Hbss, length_map.
  - intros i pg blocks Hi Hpg Hno.
    assert (Hb : bss !! i = Some blocks).
    { apply (sequence_Ok_lookup _ _ i blocks Hbss).
      change (map get_text doc) with (get_text <$> doc).
      by rewrite list_lookup_fmap, Hi; simpl; rewrite Hpg. }
    change (map ?f bss) with (f <$> bss).
    rewrite list_lookup_fmap, Hb. simpl.
    by rewrite text_spans_no_text_blocks.
Qed.

Lemma page_counts_agree_witness :
  ∃ images all_pages,
    pdf_to_page_images Sample.pdf_path 150 (Sample.world_with Sample.pdf)
      = (Ok images, Sample.world_with Sample.pdf)
    ∧ extract_text_regions Sample.pdf_path 150 (Sample.world_with Sample.pdf)
      = (Ok all_pages, Sample.world_with Sample.pdf)
    ∧ length images = 3%nat
    ∧ length all_pages = 3%nat
    ∧ ∀ i pg blocks,
        [Sample.page1; Sample.page2; Sample.page3] !! i = Some pg →
        get_text pg = Ok blocks →
        no_text_blocks blocks → all_pages !! i = Some [].
Proof.
  apply (page_counts_agree Sample.pdf_path 150 (Sample.world_with Sample.pdf)
           [Sample.page1; Sample.page2; Sample.page3]
           (fdiv 150%float f72)).
  - exists Sample.pdf. split; reflexivity.
  - vm_compute. reflexivity.
  - repeat constructor; by eexists.
  - repeat constructor; by eexists.
Defined.

(** ** Document handles *)

(** On a normal return both functions have closed the document they opened. *)
Lemma pdf_to_page_images_returns_closed pdf_path dpi w images w' :
  pdf_to_page_images pdf_path dpi w = (Ok images, w') → w' = w.
Proof.
  rewrite pdf_to_page_images_unfold.
  destruct (fitz_open pdf_path w) as [[doc|e] w1] eqn:Hopen; [|done].
  apply fitz_open_Ok in Hopen as [_ ->].
  destruct (zoom_of_dpi dpi); [|done].
  destruct (sequence _); [|done].
  intros [= _ <-]. apply set_handles_pred_S.
Qed.

Lemma extract_text_regions_returns_closed pdf_path dpi w all_pages w' :
  extract_text_regions pdf_path dpi w = (Ok all_pages, w') → w' = w.
Proof.
  rewrite extract_text_regions_unfold.
  destruct (fitz_open pdf_path w) as [[doc|e] w1] eqn:Hopen; [|done].
  apply fitz_open_Ok in Hopen as [_ ->].
  destruct (zoom_of_dpi dpi); [|done].
  destruct (sequence _); [|done].
  intros [= _ <-]. apply set_handles_pred_S.
Qed.

(** When a page fails after the document was opened, the exception leaves
    the function before [doc.close()] is reached. *)
Lemma pdf_to_page_images_raises_open pdf_path dpi w doc zoom e :
  readable_pdf w pdf_path doc →
  zoom_of_dpi dpi = Ok zoom →
  sequence (map (fun pg => get_pixmap pg zoom) doc) = Raise e →
  pdf_to_page_images pdf_path dpi w = (Raise e, set_handles S w).
Proof.
  intros Hdoc Hz Hseq. rewrite pdf_to_page_images_unfold.
  assert (fitz_open pdf_path w = (Ok doc, set_handles S w)) as ->
    by by apply fitz_open_Ok.
  by rewrite Hz, Hseq.
Qed.

Lemma extract_text_regions_raises_open pdf_path dpi w doc zoom e :
  readable_pdf w pdf_path doc →
  zoom_of_dpi dpi = Ok zoom →
  sequence (map get_text doc) = Raise e →
  extract_text_regions pdf_path dpi w = (Raise e, set_handles S w).
Proof.
  intros Hdoc Hz Hseq. rewrite extract_text_regions_unfold.
  assert (fitz_open pdf_path w = (Ok doc, set_handles S w)) as ->
    by by apply fitz_open_Ok.
  by rewrite Hz, Hseq.
Qed.

(** C9. On a PDF whose second page cannot be rendered or walked, both
    functions raise with the document they opened still open: no handle
    was open before the call, one is after it. *)
Theorem page_failure_leaves_document_open :
  let w := Sample.world_with Sample.broken_pdf in
  handles w = 0%nat
  ∧ fst (pdf_to_page_images Sample.pdf_path 150 w)
    = Raise (MuPDFError "cannot render page")
  ∧ handles (snd (pdf_to_page_images Sample.pdf_path 150 w)) = 1%nat
  ∧ fst (extract_text_regions Sample.pdf_path 150 w)
    = Raise (MuPDFError "cannot load page")
  ∧ handles (snd (extract_text_regions Sample.pdf_path 150 w)) = 1%nat.
Proof. vm_compute. repeat split. Qed.

(** ** The document store *)

Lemma node_at_image_file fs doc_id page_num :
  node_at fs (page_image_file doc_id page_num)
  = fs !! page_image_file doc_id page_num.
Proof. done. Qed.

Lemma node_at_ocr_file fs doc_id page_num :
  node_at fs (page_ocr_file doc_id page_num)
  = fs !! page_ocr_file doc_id page_num.
Proof. done. Qed.

Lemma removelast_snoc {A} (l : list A) (x : A) : removelast (l ++ [x]) = l.
Proof. apply removelast_last. Qed.

Lemma parent_image_file doc_id page_num :
  removelast (page_image_file doc_id page_num) = _doc_dir doc_id ++ ["pages"%string].
Proof.
  unfold page_image_file. rewrite app_assoc. apply removelast_snoc.
Qed.

Lemma parent_ocr_file doc_id page_num :
  removelast (page_ocr_file doc_id page_num) = _doc_dir doc_id ++ ["ocr"%string].
Proof.
  unfold page_ocr_file. rewrite app_assoc. apply removelast_snoc.
Qed.

(** When a write goes through, and what it leaves. *)
Lemma write_file_Ok p c w :
  node_at (files w) (removelast p) = Some Dir →
  node_at (files w) p ≠ Some Dir →
  p ∉ faults w →
  write_file p c w = (Ok tt, set_files (fun fs => <[p := File c]> fs) w).
Proof.
  intros Hparent Hnode Hfault. unfold write_file. rewrite Hparent.
  rewrite bool_decide_eq_false_2 by done.
  by destruct (node_at (files w) p) as [[|c']|].
Qed.

Lemma write_file_inv p c w r w' :
  write_file p c w = (r, w') →
  (r = Ok tt ∧ w' = set_files (fun fs => <[p := File c]> fs) w
   ∧ node_at (files w) (removelast p) = Some Dir)
  ∨ (∃ e, r = Raise e ∧ w' = w).
Proof.
  unfold write_file.
  destruct (node_at (files w) (removelast p)) as [[|c0]|];
    try (intros [= <- <-]; right; by eexists).
  destruct (node_at (files w) p) as [[|c']|];
    try (intros [= <- <-]; right; by eexists);
    case_bool_decide; intros [= <- <-];
    (by left) || (right; by eexists).
Qed.



(** C5. Once the document's storage is allocated and the write is not
    refused, [save_page_ocr doc n R] returns and [get_page_ocr doc n] then
    returns exactly [R], the empty sequence included. *)
Theorem save_then_get_page_ocr doc_id page_num (R : list region) w :
  node_at (files w) (_doc_dir doc_id ++ ["ocr"%string]) = Some Dir →
  files w !! page_ocr_file doc_id page_num ≠ Some Dir →
  page_ocr_file doc_id page_num ∉ faults w →
  ∃ w',
    save_page_ocr doc_id page_num R w = (Ok (page_ocr_file doc_id page_num), w')
    ∧ get_page_ocr doc_id page_num w' = (Ok (Some R), w').
Proof.
  intros Hdir Hnode Hfault.
  exists (set_files (fun fs => <[page_ocr_file doc_id page_num := File (JsonFile R)]> fs) w).
  split.
  - unfold save_page_ocr, bind. fold (page_ocr_file doc_id page_num).
    by rewrite write_file_Ok.
  - unfold get_page_ocr, bind, path_exists, read_json.
    fold (page_ocr_file doc_id page_num).
    rewrite !node_at_ocr_file. unfold set_files. cbn [files].
    rewrite lookup_insert_eq.
    rewrite bool_decide_eq_true_2 by by eexists.
    cbn [negb files]. rewrite node_at_ocr_file, lookup_insert_eq. done.
Qed.

Lemma save_then_get_page_ocr_witness :
  ∃ w',
    save_page_ocr "doc-1" 1 [Sample.hello_region] Sample.allocated
    = (Ok (page_ocr_file "doc-1" 1), w')
    ∧ get_page_ocr "doc-1" 1 w' = (Ok (Some [Sample.hello_region]), w').
Proof.
  apply (save_then_get_page_ocr "doc-1" 1 [Sample.hello_region] Sample.allocated).
  - vm_compute. reflexivity.
  - vm_compute. discriminate.
  - vm_compute. set_solver.
Defined.

(** The empty sequence round-trips as well. *)
Lemma save_then_get_empty_ocr :
  ∃ w',
    save_page_ocr "doc-1" 2 [] Sample.allocated
    = (Ok (page_ocr_file "doc-1" 2), w')
    ∧ get_page_ocr "doc-1" 2 w' = (Ok (Some []), w').
Proof. eexists. split; vm_compute; reflexivity. Qed.

(** ** Allocation *)

Lemma mkdir_walk_subseteq base todo fs r fs' :
  mkdir_walk base todo fs = (r, fs') → fs ⊆ fs'.
Proof.
  revert base fs. induction todo as [|c rest IH]; intros base fs; simpl.
  - by intros [= _ <-].
  - destruct (fs !! (base ++ [c])) as [[|c0]|] eqn:Hp.
    + apply IH.
    + by intros [= _ <-].
    + intros H. apply IH in H. etrans; [|exact H].
      by apply insert_subseteq.
Qed.

Lemma mkdir_walk_Ok_prefixes base todo fs fs' :
  mkdir_walk base todo fs = (Ok tt, fs') →
  ∀ k, (0 < k ≤ length todo)%nat → fs' !! (base ++ take k todo) = Some Dir.
Proof.
  revert base fs. induction todo as [|c rest IH]; intros base fs; simpl.
  - intros _ k Hk. lia.
  - intros H k Hk. destruct k as [|k]; [lia|]. simpl.
    assert (Hhere : ∀ fs1, fs1 !! (base ++ [c]) = Some Dir →
              mkdir_walk (base ++ [c]) rest fs1 = (Ok tt, fs') →
              fs' !! (base ++ c :: take k rest) = Some Dir).
    { intros fs1 Hfs1 Hwalk. destruct k as [|k].
      - rewrite take_0. apply mkdir_walk_subseteq in Hwalk.
        by eapply lookup_weaken.
      - rewrite (cons_middle c base), app_assoc.
        eapply IH; [exact Hwalk|]. simpl in Hk. lia. }
    destruct (fs !! (base ++ [c])) as [[|c0]|] eqn:Hp.
    + by eapply Hhere.
    + done.
    + eapply Hhere; [|exact H]. apply lookup_insert_eq.
Qed.

Lemma create_document_storage_Ok doc_id w dir w' :
  create_document_storage doc_id w = (Ok dir, w') →
  dir = _doc_dir doc_id
  ∧ files w ⊆ files w'
  ∧ faults w' = faults w ∧ handles w' = handles w ∧ stdout w' = stdout w
  ∧ files w' !! _doc_dir doc_id = Some Dir
  ∧ files w' !! (_doc_dir doc_id ++ ["pages"%string]) = Some Dir
  ∧ files w' !! (_doc_dir doc_id ++ ["ocr"%string]) = Some Dir.
Proof.
  unfold create_document_storage, bind, mkdir_parents, ret.
  destruct (mkdir_walk [] (_doc_dir doc_id ++ ["pages"%string]) (files w))
    as [[[]|e1] fs1] eqn:H1; [|done].
  cbn [files set_files].
  destruct (mkdir_walk [] (_doc_dir doc_id ++ ["ocr"%string]) fs1)
    as [[[]|e2] fs2] eqn:H2; [|done].
  intros [= <- <-]. cbn.
  pose proof (mkdir_walk_subseteq _ _ _ _ _ H1) as S1.
  pose proof (mkdir_walk_subseteq _ _ _ _ _ H2) as S2.
  pose proof (mkdir_walk_Ok_prefixes _ _ _ _ H1) as P1.
  pose proof (mkdir_walk_Ok_prefixes _ _ _ _ H2) as P2.
  repeat split.
  - by etrans.
  - apply (P2 3%nat). simpl. lia.
  - eapply lookup_weaken; [|exact S2]. apply (P1 4%nat). simpl. lia.
  - apply (P2 4%nat). simpl. lia.
Qed.

(** ** The upload handler *)

Lemma convert_to_markdown_with_temp req w :
  convert_to_markdown (req_tmp_path req) (with_temp req w)
  = (docling_markdown (req_file req), with_temp req w).
Proof.
  unfold convert_to_markdown, with_temp, set_files. cbn [files].
  by rewrite lookup_insert_eq.
Qed.

Lemma remove_temp_deletes p w :
  remove_temp p w = (Ok tt, set_files (fun fs => delete p fs) w).
Proof.
  unfold remove_temp, bind, path_exists. case_bool_decide as Hex.
  - done.
  - unfold ret. f_equal. unfold set_files. destruct w as [fs ? ? ?]. cbn.
    f_equal. symmetry. apply delete_id.
    destruct p as [|c p]; [exfalso; apply Hex; by eexists|].
    cbn in Hex. destruct (fs !! (c :: p)) eqn:Hl; [|done].
    exfalso. apply Hex. by eexists.
Qed.

(** The handler on a PDF upload whose markdown conversion succeeded, in
    terms of the outcome of the inner [try] body. *)
Lemma convert_document_pdf req w md :
  lower (req_suffix req) = ".pdf"%string →
  docling_markdown (req_file req) = Ok md →
  convert_document req w
  = match ocr_try_body req (with_temp req w) with
    | (Ok (d, h), w1) =>
        (Returned {| markdown := md; doc_id := d; has_ocr := h |},
         set_files (fun fs => delete (req_tmp_path req) fs) w1)
    | (Raise e, w1) =>
        (Returned {| markdown := md; doc_id := None; has_ocr := false |},
         set_files (fun fs => delete (req_tmp_path req) fs)
           (set_stdout (fun out => out ++ [LogNonFatal e]) w1))
    end.
Proof.
  intros Hpdf Hmd.
  unfold convert_document, bind at 1, write_temp. fold (with_temp req w).
  unfold try_finally, convert_inner, bind at 1.
  rewrite convert_to_markdown_with_temp, Hmd.
  rewrite bool_decide_eq_true_2 by done.
  unfold bind, try_except.
  destruct (ocr_try_body req (with_temp req w)) as [[[d h]|e] w1].
  - unfold ret. by rewrite remove_temp_deletes.
  - unfold ocr_except, bind, print, ret. by rewrite remove_temp_deletes.
Qed.

(** The inner [try] body raises as soon as one of its parts does. *)
Lemma ocr_try_body_raises req w e w_f :
  extraction_raises req w e w_f →
  ocr_try_body req w = (Raise e, w_f).
Proof.
  unfold extraction_raises, ocr_try_body, bind at 1.
  intros [->|(dir & w0 & -> & Hparts)]; [done|].
  unfold bind at 1.
  destruct Hparts as [Hr|[(images & w1 & Hr & Hx)|(images & rs & w1 & -> & Hs)]].
  - unfold process_pdf, bind at 1. simpl. unfold bind at 1. simpl in Hr.
    by rewrite Hr.
  - unfold process_pdf, bind at 1. simpl. unfold bind at 1. simpl in Hr.
    rewrite Hr. unfold bind at 1. simpl. unfold bind at 1. simpl in Hx.
    by rewrite Hx.
  - unfold bind at 1. by rewrite Hs.
Qed.

(** C8. When a part of the extraction (allocation, rasterization,
    text-region extraction, or a page save) raises on an uploaded PDF, the
    handler still returns the markdown, with [doc_id] null and [has_ocr]
    false; the error goes to standard output and the response has no field
    for it. *)
Theorem ocr_failure_is_non_fatal req w md e w_f :
  lower (req_suffix req) = ".pdf"%string →
  docling_markdown (req_file req) = Ok md →
  extraction_raises req (with_temp req w) e w_f →
  ∃ w',
    convert_document req w
    = (Returned {| markdown := md; doc_id := None; has_ocr := false |}, w')
    ∧ stdout w' = stdout w_f ++ [LogNonFatal e].
Proof.
  intros Hpdf Hmd Hbody%ocr_try_body_raises.
  rewrite (convert_document_pdf req w md Hpdf Hmd), Hbody.
  by eexists.
Qed.

Lemma ocr_failure_is_non_fatal_witness :
  ∃ w',
    convert_document Sample.broken_request Sample.empty_world
    = (Returned {| markdown := "# Hello World"; doc_id := None; has_ocr := false |}, w')
    ∧ stdout w'
      = stdout (snd (ocr_try_body Sample.broken_request
                       (with_temp Sample.broken_request Sample.empty_world)))
        ++ [LogNonFatal (MuPDFError "cannot render page")].
Proof.
  apply (ocr_failure_is_non_fatal Sample.broken_request Sample.empty_world
           "# Hello World" (MuPDFError "cannot render page")).
  - vm_compute. reflexivity.
  - reflexivity.
  - right. eexists _, _. split; [vm_compute; reflexivity|].
    left. vm_compute. reflexivity.
Defined.

(** ** File names *)

Lemma list_ascii_of_string_app (s t : string) :
  String.list_ascii_of_string (s +:+ t)
  = String.list_ascii_of_string s ++ String.list_ascii_of_string t.
Proof. induction s as [|c s IH]; simpl; [done|]. by rewrite IH. Qed.

Lemma list_ascii_of_string_inj (s t : string) :
  String.list_ascii_of_string s = String.list_ascii_of_string t → s = t.
Proof.
  intros H. rewrite <- (String.string_of_list_ascii_of_string s),
    <- (String.string_of_list_ascii_of_string t). by rewrite H.
Qed.

Lemma string_app_inv_tail (s s' t : string) : s +:+ t = s' +:+ t → s = s'.
Proof.
  intros H. apply list_ascii_of_string_inj.
  apply (f_equal String.list_ascii_of_string) in H.
  rewrite !list_ascii_of_string_app in H. by apply app_inv_tail in H.
Qed.

Lemma string_app_inv_head (s t t' : string) : s +:+ t = s +:+ t' → t = t'.
Proof.
  induction s as [|c s IH]; simpl; [done|]. intros [= H]. by apply IH.
Qed.

Lemma str_of_int_inj n m : str_of_int n = str_of_int m → n = m.
Proof.
  unfold str_of_int. intros H.
  assert (Hnil : ∀ z, Z.to_int z ≠ Decimal.Pos Decimal.Nil
                      ∧ Z.to_int z ≠ Decimal.Neg Decimal.Nil).
  { intros [|p|p]; split; simpl; try discriminate;
      intros [= Hp]; by apply DecimalPos.Unsigned.to_uint_nonnil in Hp. }
  apply DecimalZ.to_int_inj.
  destruct (Hnil n) as [Hn1 Hn2], (Hnil m) as [Hm1 Hm2].
  pose proof (NilZero.isi _ Hn1 Hn2) as En.
  pose proof (NilZero.isi _ Hm1 Hm2) as Em.
  rewrite H, Em in En. by injection En.
Qed.

Lemma page_png_inj n m : page_png n = page_png m → n = m.
Proof.
  unfold page_png. intros H. apply string_app_inv_head in H.
  apply string_app_inv_tail in H. by apply str_of_int_inj.
Qed.

Lemma page_json_inj n m : page_json n = page_json m → n = m.
Proof.
  unfold page_json. intros H. apply string_app_inv_head in H.
  apply string_app_inv_tail in H. by apply str_of_int_inj.
Qed.

Lemma page_image_file_inj d n m :
  page_image_file d n = page_image_file d m → n = m.
Proof.
  unfold page_image_file. intros H. apply app_inv_head in H.
  apply page_png_inj. simpl in H. congruence.
Qed.

Lemma page_ocr_file_inj d n m :
  page_ocr_file d n = page_ocr_file d m → n = m.
Proof.
  unfold page_ocr_file. intros H. apply app_inv_head in H.
  apply page_json_inj. simpl in H. congruence.
Qed.

Lemma page_image_file_ne_ocr d d' n m :
  page_image_file d n ≠ page_ocr_file d' m.
Proof. unfold page_image_file, page_ocr_file. simpl. intros H. simplify_eq. Qed.

(** ** Saving pages *)

Lemma save_page_image_inv d n img w r w' :
  save_page_image d n img w = (r, w') →
  (r = Ok (page_image_file d n)
   ∧ w' = set_files (fun fs => <[page_image_file d n := File (PngFile img)]> fs) w
   ∧ files w !! (_doc_dir d ++ ["pages"%string]) = Some Dir)
  ∨ (∃ e, r = Raise e ∧ w' = w).
Proof.
  unfold save_page_image, bind. fold (page_image_file d n).
  destruct (write_file _ _ w) as [r0 w0] eqn:Hw.
  apply write_file_inv in Hw as [(-> & -> & Hdir)|(e & -> & ->)].
  - intros [= <- <-]. left. by rewrite parent_image_file in Hdir.
  - intros [= <- <-]. right. by eexists.
Qed.

Lemma save_page_ocr_inv d n rs w r w' :
  save_page_ocr d n rs w = (r, w') →
  (r = Ok (page_ocr_file d n)
   ∧ w' = set_files (fun fs => <[page_ocr_file d n := File (JsonFile rs)]> fs) w
   ∧ files w !! (_doc_dir d ++ ["ocr"%string]) = Some Dir)
  ∨ (∃ e, r = Raise e ∧ w' = w).
Proof.
  unfold save_page_ocr, bind. fold (page_ocr_file d n).
  destruct (write_file _ _ w) as [r0 w0] eqn:Hw.
  apply write_file_inv in Hw as [(-> & -> & Hdir)|(e & -> & ->)].
  - intros [= <- <-]. left. by rewrite parent_ocr_file in Hdir.
  - intros [= <- <-]. right. by eexists.
Qed.

(** A save loop that raises has saved the pages before the failing one,
    and has touched nothing but page files. *)
Lemma save_loop_Raise d pairs : ∀ i w e w',
  save_loop d i pairs w = (Raise e, w') →
  faults w' = faults w ∧ stdout w' = stdout w ∧ handles w' = handles w
  ∧ (∀ p, not_page_above d i p → files w' !! p = files w !! p)
  ∧ ∃ k, (k < length pairs)%nat
      ∧ ∀ j img rs, (j < k)%nat → pairs !! j = Some (img, rs) →
          files w' !! page_image_file d (i + Z.of_nat j + 1)
          = Some (File (PngFile img))
          ∧ files w' !! page_ocr_file d (i + Z.of_nat j + 1)
            = Some (File (JsonFile rs)).
Proof.
  induction pairs as [|[img rs] rest IH]; intros i w e w'; [done|].
  cbn [save_loop]. unfold bind at 1.
  destruct (save_page_image d (i + 1) img w) as [r1 w1] eqn:H1.
  apply save_page_image_inv in H1 as [(-> & -> & _)|(e1 & -> & ->)].
  2:{ intros [= <- <-]. repeat split. exists 0%nat. simpl. split; [lia|]. intros; lia. }
  unfold bind at 1.
  destruct (save_page_ocr d (i + 1) rs _) as [r2 w2] eqn:H2.
  apply save_page_ocr_inv in H2 as [(-> & -> & _)|(e2 & -> & ->)].
  2:{ intros [= <- <-]. repeat split.
      - intros p Hp. cbn. apply lookup_insert_ne.
        intros <-. by destruct (Hp (i + 1)); [lia|].
      - exists 0%nat. simpl. split; [lia|]. intros; lia. }
  intros Hloop. apply IH in Hloop as (Hf & Ho & Hh & Hkeep & k & Hk & Hpages).
  cbn in Hf, Ho, Hh, Hkeep. repeat split; try done.
  - intros p Hp. rewrite Hkeep.
    + rewrite !lookup_insert_ne; [done| |];
        intros <-; by destruct (Hp (i + 1)); [lia|].
    + intros n Hn. apply Hp. lia.
  - exists (S k). simpl. split; [lia|].
    intros [|j] img' rs' Hj Hlook; simpl in Hlook.
    + injection Hlook as <- <-. rewrite Z.add_0_r.
      rewrite !Hkeep.
      * rewrite lookup_insert_eq, lookup_insert_ne, lookup_insert_eq; [done|].
        intros H. symmetry in H. by apply page_image_file_ne_ocr in H.
      * intros n Hn. split; [by apply not_eq_sym, page_image_file_ne_ocr|].
        intros H%page_ocr_file_inj. lia.
      * intros n Hn. split; [|by apply page_image_file_ne_ocr].
        intros H%page_image_file_inj. lia.
    + replace (i + Z.of_nat (S j) + 1) with (i + 1 + Z.of_nat j + 1) by lia.
      apply Hpages; [lia|done].
Qed.

(** ** The processor leaves the disk alone *)

Lemma fitz_open_disk p w r w1 :
  fitz_open p w = (r, w1) → files w1 = files w ∧ faults w1 = faults w.
Proof.
  unfold fitz_open.
  destruct (files w !! p) as [[|[?|?|u]]|]; try (by intros [= <- <-]).
  destruct (mupdf_document u); by intros [= <- <-].
Qed.

Lemma pdf_to_page_images_disk p dpi w r w' :
  pdf_to_page_images p dpi w = (r, w') →
  files w' = files w ∧ faults w' = faults w.
Proof.
  rewrite pdf_to_page_images_unfold.
  destruct (fitz_open p w) as [[doc|e] w1] eqn:Hopen;
    apply fitz_open_disk in Hopen; [|by intros [= <- <-]].
  destruct (zoom_of_dpi dpi); [|by intros [= <- <-]].
  destruct (sequence _); by intros [= <- <-].
Qed.

Lemma extract_text_regions_disk p dpi w r w' :
  extract_text_regions p dpi w = (r, w') →
  files w' = files w ∧ faults w' = faults w.
Proof.
  rewrite extract_text_regions_unfold.
  destruct (fitz_open p w) as [[doc|e] w1] eqn:Hopen;
    apply fitz_open_disk in Hopen; [|by intros [= <- <-]].
  destruct (zoom_of_dpi dpi); [|by intros [= <- <-]].
  destruct (sequence _); by intros [= <- <-].
Qed.

Lemma process_pdf_disk p dpi w r w' :
  process_pdf p dpi w = (r, w') →
  files w' = files w ∧ faults w' = faults w.
Proof.
  unfold process_pdf, bind, print, ret.
  destruct (pdf_to_page_images p dpi _) as [[images|e] w1] eqn:H1;
    apply pdf_to_page_images_disk in H1 as [F1 G1]; cbn in F1, G1;
    [|intros [= <- <-]; by rewrite F1, G1].
  destruct (extract_text_regions p dpi _) as [[regions|e] w2] eqn:H2;
    apply extract_text_regions_disk in H2 as [F2 G2]; cbn in F2, G2;
    intros [= <- <-]; cbn; by rewrite F2, G2, F1, G1.
Qed.

(** ** Reading pages back *)

Lemma get_page_image_path_Some d n w c :
  files w !! page_image_file d n = Some c →
  get_page_image_path d n w = (Ok (Some (page_image_file d n)), w).
Proof.
  intros H. unfold get_page_image_path, bind, path_exists.
  fold (page_image_file d n). rewrite node_at_image_file, H.
  by rewrite bool_decide_eq_true_2 by by eexists.
Qed.

Lemma get_page_ocr_Some d n w rs :
  files w !! page_ocr_file d n = Some (File (JsonFile rs)) →
  get_page_ocr d n w = (Ok (Some rs), w).
Proof.
  intros H. unfold get_page_ocr, bind, path_exists, read_json.
  fold (page_ocr_file d n). rewrite node_at_ocr_file, H.
  rewrite bool_decide_eq_true_2 by by eexists.
  cbn [negb]. by rewrite node_at_ocr_file, H.
Qed.

Lemma store_path_not_page (d : string) (i : Z) (tail : list string) :
  (length tail ≤ 1)%nat → not_page_above d i (_doc_dir d ++ tail).
Proof.
  intros Hlen n _. unfold page_image_file, page_ocr_file.
  split; intros H%app_inv_head; apply (f_equal length) in H; simpl in H; lia.
Qed.

(** What a save loop that returns has put on the disk. *)
Lemma save_loop_Ok_inv d pairs : ∀ i w w',
  save_loop d i pairs w = (Ok tt, w') →
  faults w' = faults w ∧ stdout w' = stdout w ∧ handles w' = handles w
  ∧ (∀ p, not_page_above d i p → files w' !! p = files w !! p)
  ∧ ∀ j img rs, pairs !! j = Some (img, rs) →
      files w' !! page_image_file d (i + Z.of_nat j + 1)
      = Some (File (PngFile img))
      ∧ files w' !! page_ocr_file d (i + Z.of_nat j + 1)
        = Some (File (JsonFile rs)).
Proof.
  induction pairs as [|[img rs] rest IH]; intros i w w'.
  { intros [= <-]. by repeat split. }
  cbn [save_loop]. unfold bind at 1.
  destruct (save_page_image d (i + 1) img w) as [r1 w1] eqn:H1.
  apply save_page_image_inv in H1 as [(-> & -> & _)|(e1 & -> & ->)]; [|done].
  unfold bind at 1.
  destruct (save_page_ocr d (i + 1) rs _) as [r2 w2] eqn:H2.
  apply save_page_ocr_inv in H2 as [(-> & -> & _)|(e2 & -> & ->)]; [|done].
  intros Hloop. apply IH in Hloop as (Hf & Ho & Hh & Hkeep & Hpages).
  cbn in Hf, Ho, Hh, Hkeep.
  split; [done|]. split; [done|]. split; [done|]. split.
  - intros p Hp. rewrite Hkeep.
    + rewrite !lookup_insert_ne; [done| |];
        intros <-; by destruct (Hp (i + 1)); [lia|].
    + intros n Hn. apply Hp. lia.
  - intros [|j] img' rs' Hlook; simpl in Hlook.
    + injection Hlook as <- <-. rewrite Z.add_0_r.
      rewrite !Hkeep.
      * rewrite lookup_insert_eq, lookup_insert_ne, lookup_insert_eq; [done|].
        intros H. symmetry in H. by apply page_image_file_ne_ocr in H.
      * intros n Hn. split; [by apply not_eq_sym, page_image_file_ne_ocr|].
        intros H%page_ocr_file_inj. lia.
      * intros n Hn. split; [|by apply page_image_file_ne_ocr].
        intros H%page_image_file_inj. lia.
    + replace (i + Z.of_nat (S j) + 1) with (i + 1 + Z.of_nat j + 1) by lia.
      by apply Hpages.
Qed.

(** The loop over a list is the loop over its first [k] pairs, then over
    the others. *)
Lemma save_loop_take_drop d (k : nat) : ∀ pairs i w,
  save_loop d i pairs w
  = match save_loop d i (take k pairs) w with
    | (Ok _, wk) =>
        save_loop d (i + Z.of_nat (length (take k pairs))) (drop k pairs) wk
    | (Raise e, wk) => (Raise e, wk)
    end.
Proof.
  induction k as [|k IH]; intros pairs i w.
  { rewrite take_0, drop_0. simpl. by rewrite Z.add_0_r. }
  destruct pairs as [|[img rs] rest]; [done|].
  cbn [take drop save_loop length]. unfold bind.
  destruct (save_page_image d (i + 1) img w) as [[p1|e1] w1]; [|done].
  destruct (save_page_ocr d (i + 1) rs w1) as [[p2|e2] w2]; [|done].
  rewrite (IH rest (i + 1) w2).
  destruct (save_loop d (i + 1) (take k rest) w2) as [[[]|e] wk]; [|done].
  f_equal. lia.
Qed.

(** C10. A PDF upload whose save loop raises after it has saved the first
    [k] pages: the handler answers with [doc_id] null and removes nothing
    but its temporary file, so the directories allocated for the minted
    identifier and each of the [k] pages saved before the failure are still
    on disk when it returns, and the store still serves them under that
    identifier. *)
Theorem failed_run_leaves_orphaned_pages
  req w md dir w0 images ocr_results w1 k wk e w2 :
  lower (req_suffix req) = ".pdf"%string →
  ¬ BASE_DIR `prefix_of` req_tmp_path req →
  docling_markdown (req_file req) = Ok md →
  create_document_storage (req_uuid req) (with_temp req w) = (Ok dir, w0) →
  process_pdf (req_tmp_path req) default_dpi w0 = (Ok (images, ocr_results), w1) →
  save_loop (req_uuid req) 0 (take k (zip images ocr_results)) w1 = (Ok tt, wk) →
  save_loop (req_uuid req) 0 (zip images ocr_results) w1 = (Raise e, w2) →
  ∃ w',
    convert_document req w
    = (Returned {| markdown := md; doc_id := None; has_ocr := false |}, w')
    ∧ files w' = delete (req_tmp_path req) (files w2)
    ∧ (k < length (zip images ocr_results))%nat
    ∧ files w' !! _doc_dir (req_uuid req) = Some Dir
    ∧ files w' !! (_doc_dir (req_uuid req) ++ ["pages"%string]) = Some Dir
    ∧ files w' !! (_doc_dir (req_uuid req) ++ ["ocr"%string]) = Some Dir
    ∧ ∀ j img rs, (j < k)%nat → zip images ocr_results !! j = Some (img, rs) →
        files w' !! page_image_file (req_uuid req) (Z.of_nat j + 1)
        = Some (File (PngFile img))
        ∧ get_page_image_path (req_uuid req) (Z.of_nat j + 1) w'
          = (Ok (Some (page_image_file (req_uuid req) (Z.of_nat j + 1))), w')
        ∧ get_page_ocr (req_uuid req) (Z.of_nat j + 1) w' = (Ok (Some rs), w').
Proof.
  intros Hpdf Htmp Hmd Hcreate Hproc Hfirst Hloop.
  assert (Hbody : ocr_try_body req (with_temp req w) = (Raise e, w2)).
  { unfold ocr_try_body, bind at 1. rewrite Hcreate.
    unfold bind at 1. rewrite Hproc. unfold bind at 1. by rewrite Hloop. }
  rewrite (convert_document_pdf req w md Hpdf Hmd), Hbody.
  apply create_document_storage_Ok in Hcreate
    as (_ & _ & _ & _ & _ & Hd & Hp & Ho).
  apply process_pdf_disk in Hproc as [Hfiles _].
  assert (Hk : (k < length (zip images ocr_results))%nat).
  { destruct (decide (k < length (zip images ocr_results))%nat); [done|].
    rewrite take_ge in Hfirst by lia. congruence. }
  rewrite (save_loop_take_drop _ k), Hfirst in Hloop.
  apply save_loop_Ok_inv in Hfirst as (_ & _ & _ & Hkeep1 & Hsaved).
  apply save_loop_Raise in Hloop as (_ & _ & _ & Hkeep & _).
  rewrite length_take, Nat.min_l, Z.add_0_l in Hkeep by lia.
  assert (Hstore : ∀ tail, req_tmp_path req ≠ _doc_dir (req_uuid req) ++ tail).
  { intros tail Heq. apply Htmp. rewrite Heq. unfold _doc_dir.
    rewrite <- app_assoc. by apply prefix_app_r. }
  assert (Hdirs : ∀ tail, (length tail ≤ 1)%nat →
            files w2 !! (_doc_dir (req_uuid req) ++ tail)
            = files w0 !! (_doc_dir (req_uuid req) ++ tail)).
  { intros tail Hlen. rewrite Hkeep, Hkeep1, Hfiles; [done| |];
      by apply store_path_not_page. }
  assert (Hpage : ∀ j img rs, (j < k)%nat →
            zip images ocr_results !! j = Some (img, rs) →
            files w2 !! page_image_file (req_uuid req) (Z.of_nat j + 1)
            = Some (File (PngFile img))
            ∧ files w2 !! page_ocr_file (req_uuid req) (Z.of_nat j + 1)
              = Some (File (JsonFile rs))).
  { intros j img rs Hj Hlook.
    destruct (Hsaved j img rs) as [Hi Hr].
    { by rewrite lookup_take_lt. }
    rewrite Z.add_0_l in Hi, Hr. rewrite !Hkeep; [done| |].
    - intros n Hn. split; [by apply not_eq_sym, page_image_file_ne_ocr|].
      intros Heq%page_ocr_file_inj. lia.
    - intros n Hn. split; [|by apply page_image_file_ne_ocr].
      intros Heq%page_image_file_inj. lia. }
  eexists. split; [reflexivity|].
  unfold set_files, set_stdout. cbn [files].
  split; [done|]. split; [done|].
  repeat split.
  - rewrite lookup_delete_ne by (rewrite <- (app_nil_r (_doc_dir _)); apply Hstore).
    rewrite <- (app_nil_r (_doc_dir _)), Hdirs, app_nil_r; [done|]. simpl. lia.
  - rewrite lookup_delete_ne by apply Hstore.
    rewrite Hdirs; [done|]. simpl. lia.
  - rewrite lookup_delete_ne by apply Hstore.
    rewrite Hdirs; [done|]. simpl. lia.
  - rewrite lookup_delete_ne by apply Hstore.
    by destruct (Hpage j img rs) as [Hi _].
  - eapply get_page_image_path_Some. cbn [files].
    rewrite lookup_delete_ne by apply Hstore.
    by destruct (Hpage j img rs) as [Hi _].
  - apply get_page_ocr_Some. cbn [files].
    rewrite lookup_delete_ne by apply Hstore.
    by destruct (Hpage j img rs) as [_ Hr].
Qed.

Lemma failed_run_leaves_orphaned_pages_witness :
  ∃ w',
    convert_document Sample.good_request Sample.failing_disk
    = (Returned {| markdown := "# Hello World"; doc_id := None; has_ocr := false |}, w')
    ∧ files w'
      = delete Sample.pdf_path
          (files (snd (ocr_try_body Sample.good_request
                         (with_temp Sample.good_request Sample.failing_disk))))
    ∧ (1 < length (zip Sample.images Sample.ocr_results))%nat
    ∧ files w' !! _doc_dir "doc-1" = Some Dir
    ∧ files w' !! (_doc_dir "doc-1" ++ ["pages"%string]) = Some Dir
    ∧ files w' !! (_doc_dir "doc-1" ++ ["ocr"%string]) = Some Dir
    ∧ ∀ j img rs, (j < 1)%nat →
        zip Sample.images Sample.ocr_results !! j = Some (img, rs) →
        files w' !! page_image_file "doc-1" (Z.of_nat j + 1)
        = Some (File (PngFile img))
        ∧ get_page_image_path "doc-1" (Z.of_nat j + 1) w'
          = (Ok (Some (page_image_file "doc-1" (Z.of_nat j + 1))), w')
        ∧ get_page_ocr "doc-1" (Z.of_nat j + 1) w' = (Ok (Some rs), w').
Proof.
  apply (failed_run_leaves_orphaned_pages
           Sample.good_request Sample.failing_disk "# Hello World"
           (_doc_dir "doc-1")
           (snd (create_document_storage "doc-1"
                   (with_temp Sample.good_request Sample.failing_disk)))
           Sample.images Sample.ocr_results
           (snd (process_pdf Sample.pdf_path default_dpi
                   (snd (create_document_storage "doc-1"
                           (with_temp Sample.good_request Sample.failing_disk)))))
           1%nat
           (snd (save_loop "doc-1" 0 (take 1 (zip Sample.images Sample.ocr_results))
                   (snd (process_pdf Sample.pdf_path default_dpi
                           (snd (create_document_storage "doc-1"
                                   (with_temp Sample.good_request
                                      Sample.failing_disk)))))))
           (OSError (page_ocr_file "doc-1" 2))
           (snd (ocr_try_body Sample.good_request
                   (with_temp Sample.good_request Sample.failing_disk)))).
  - vm_compute. reflexivity.
  - intros [k Hk]. discriminate Hk.
  - reflexivity.
  - vm_compute. reflexivity.
  - vm_compute. reflexivity.
  - vm_compute. reflexivity.
  - vm_compute. reflexivity.
Defined.

(** In that run page 1 was saved whole and the image of page 2 as well:
    the store counts two pages for an identifier no response ever named. *)
Lemma failed_run_page_count :
  let w' := snd (convert_document Sample.good_request Sample.failing_disk) in
  fst (get_page_count "doc-1" w') = Ok 2%nat
  ∧ fst (get_page_ocr "doc-1" 1 w') = Ok (Some [Sample.hello_region])
  ∧ fst (get_page_ocr "doc-1" 2 w') = Ok None.
Proof. vm_compute. repeat split. Qed.

(** ** What each call of the store does to the disk *)

Lemma mkdir_walk_lookup base todo fs r fs' :
  mkdir_walk base todo fs = (r, fs') →
  ∀ p, fs' !! p = fs !! p
       ∨ (fs' !! p = Some Dir
          ∧ ∃ k, (0 < k ≤ length todo)%nat ∧ p = base ++ take k todo).
Proof.
  revert base fs. induction todo as [|c rest IH]; intros base fs; simpl.
  - intros [= _ <-] p. by left.
  - assert (Hrec : ∀ fs1, mkdir_walk (base ++ [c]) rest fs1 = (r, fs') →
              ∀ p, fs' !! p = fs1 !! p
                   ∨ (fs' !! p = Some Dir
                      ∧ ∃ k, (0 < k ≤ S (length rest))%nat
                             ∧ p = base ++ take k (c :: rest))).
    { intros fs1 Hwalk p.
      destruct (IH _ _ Hwalk p) as [Heq|[Hdir (k & Hk & ->)]]; [by left|].
      right. split; [done|]. exists (S k). split; [lia|].
      simpl. by rewrite <- app_assoc. }
    destruct (fs !! (base ++ [c])) as [[|c0]|] eqn:Hp.
    + intros H. by apply Hrec.
    + intros [= _ <-] p. by left.
    + intros H p. destruct (Hrec _ H p) as [Heq|Hnew]; [|by right].
      destruct (decide (p = base ++ [c])) as [->|Hne].
      * right. rewrite Heq, lookup_insert_eq. split; [done|].
        exists 1%nat. simpl. rewrite take_0. split; [lia|done].
      * left. by rewrite Heq, lookup_insert_ne.
Qed.

Lemma create_document_storage_effect d w r w' :
  create_document_storage d w = (r, w') →
  faults w' = faults w
  ∧ files w ⊆ files w'
  ∧ ∀ p, files w' !! p = files w !! p
         ∨ (files w' !! p = Some Dir
            ∧ ∃ k tail, (0 < k ≤ 4)%nat
                ∧ (tail = "pages"%string ∨ tail = "ocr"%string)
                ∧ p = take k (_doc_dir d ++ [tail])).
Proof.
  unfold create_document_storage, bind, mkdir_parents, ret.
  destruct (mkdir_walk [] (_doc_dir d ++ ["pages"%string]) (files w))
    as [r1 fs1] eqn:H1.
  pose proof (mkdir_walk_subseteq _ _ _ _ _ H1) as S1.
  pose proof (mkdir_walk_lookup _ _ _ _ _ H1) as L1.
  assert (N1 : ∀ p, fs1 !! p = files w !! p
                ∨ (fs1 !! p = Some Dir
                   ∧ ∃ k tail, (0 < k ≤ 4)%nat
                       ∧ (tail = "pages"%string ∨ tail = "ocr"%string)
                       ∧ p = take k (_doc_dir d ++ [tail]))).
  { intros p. destruct (L1 p) as [?|[? (k & Hk & ->)]]; [by left|].
    right. split; [done|]. exists k, "pages"%string. simpl in Hk. by auto. }
  destruct r1 as [[]|e1]; [|by intros [= <- <-]].
  cbn [files set_files].
  destruct (mkdir_walk [] (_doc_dir d ++ ["ocr"%string]) fs1)
    as [r2 fs2] eqn:H2.
  pose proof (mkdir_walk_subseteq _ _ _ _ _ H2) as S2.
  pose proof (mkdir_walk_lookup _ _ _ _ _ H2) as L2.
  assert (N2 : ∀ p, fs2 !! p = files w !! p
                ∨ (fs2 !! p = Some Dir
                   ∧ ∃ k tail, (0 < k ≤ 4)%nat
                       ∧ (tail = "pages"%string ∨ tail = "ocr"%string)
                       ∧ p = take k (_doc_dir d ++ [tail]))).
  { intros p. destruct (L2 p) as [Heq|[? (k & Hk & ->)]].
    - rewrite Heq. apply N1.
    - right. split; [done|]. exists k, "ocr"%string. simpl in Hk. by auto. }
  destruct r2 as [[]|e2]; intros [= <- <-]; cbn;
    (split; [done|]); (split; [by etrans|done]).
Qed.

Lemma cleanup_document_effect d w :
  cleanup_document d w
  = match node_at (files w) (_doc_dir d) with
    | Some Dir =>
        (Ok tt,
         set_files (fun fs => filter (fun kv => ¬ _doc_dir d `prefix_of` fst kv) fs) w)
    | Some (File _) => (Raise (NotADirectoryError (_doc_dir d)), w)
    | None => (Ok tt, w)
    end.
Proof.
  unfold cleanup_document, bind, path_exists, rmtree.
  destruct (node_at (files w) (_doc_dir d)) as [[|c]|] eqn:Hnode.
  - rewrite bool_decide_eq_true_2 by by eexists. by rewrite Hnode.
  - rewrite bool_decide_eq_true_2 by by eexists. by rewrite Hnode.
  - rewrite bool_decide_eq_false_2; [done|]. by intros [? ?].
Qed.



Lemma page_image_file_ne_dir d n d' tail :
  page_image_file d n ≠ _doc_dir d' ++ [tail].
Proof.
  intros H. apply (f_equal length) in H.
  unfold page_image_file, _doc_dir in H. rewrite !length_app in H.
  simpl in H. lia.
Qed.

Lemma page_ocr_file_ne_dir d n d' tail :
  page_ocr_file d n ≠ _doc_dir d' ++ [tail].
Proof.
  intros H. apply (f_equal length) in H.
  unfold page_ocr_file, _doc_dir in H. rewrite !length_app in H.
  simpl in H. lia.
Qed.


(** ** Listing a directory *)

Lemma child_name_Some dir p name :
  child_name dir p = Some name ↔ p = dir ++ [name].
Proof.
  revert p. induction dir as [|c dir IH]; intros p; simpl.
  - destruct p as [|x [|y p]]; split; intros H; by simplify_eq.
  - destruct p as [|x p]; [split; intros H; by simplify_eq|].
    case_bool_decide as Hc.
    + subst x. rewrite IH. split; intros H; by simplify_eq.
    + split; intros H; by simplify_eq.
Qed.

Lemma NoDup_omap_inj {A B} (f : A → option B) (l : list A) :
  (∀ x y b, x ∈ l → y ∈ l → f x = Some b → f y = Some b → x = y) →
  NoDup l → NoDup (omap f l).
Proof.
  intros Hinj Hnd. induction Hnd as [|x l Hx Hl IH]; simpl; [constructor|].
  assert (IH' : NoDup (omap f l)).
  { apply IH. intros y z b Hy Hz. apply Hinj; by apply list_elem_of_further. }
  destruct (f x) as [b|] eqn:Hfx; [|done].
  constructor; [|done].
  intros (y & Hy & Hfy)%list_elem_of_omap.
  rewrite (Hinj x y b) in Hx; try done.
  - apply list_elem_of_here.
  - by apply list_elem_of_further.
Qed.

Lemma elem_of_listdir fs dir name :
  name ∈ listdir fs dir ↔ is_Some (fs !! (dir ++ [name])).
Proof.
  unfold listdir. rewrite list_elem_of_omap. split.
  - intros ([p nd] & Hin & Hc). apply child_name_Some in Hc. simpl in Hc.
    subst p. apply elem_of_map_to_list in Hin. by eexists.
  - intros [nd Hnd]. exists (dir ++ [name], nd). split.
    + by apply elem_of_map_to_list.
    + by apply child_name_Some.
Qed.

Lemma NoDup_listdir fs dir : NoDup (listdir fs dir).
Proof.
  unfold listdir. apply NoDup_omap_inj; [|apply NoDup_map_to_list].
  intros [p nd] [q nd'] b Hin Hin' Hp Hq.
  apply child_name_Some in Hp, Hq. simpl in Hp, Hq. subst p q.
  apply elem_of_map_to_list in Hin, Hin'. congruence.
Qed.

Lemma glob_page_png_page n : glob_page_png (page_png n) = true.
Proof.
  unfold glob_page_png, page_png, starts_with, ends_with. cbv zeta.
  rewrite !list_ascii_of_string_app.
  set (pre := String.list_ascii_of_string "page_").
  set (suf := String.list_ascii_of_string ".png").
  set (s := String.list_ascii_of_string (str_of_int n)).
  rewrite !andb_true_iff. split; [split|].
  - apply Nat.leb_le. rewrite !length_app. lia.
  - apply bool_decide_eq_true_2. by rewrite take_app_length.
  - apply bool_decide_eq_true_2.
    replace (length (pre ++ s ++ suf) - length suf)%nat
      with (length (pre ++ s)) by (rewrite !length_app; lia).
    by rewrite app_assoc, drop_app_length.
Qed.

(** ** Counting pages *)



(** ** The invariant holds along every history *)













(** In the sample history "doc-1" has two images and one region list, and
    its count is two; the cleaned-up "doc-2" and the unknown "doc-3" have
    none. *)
Lemma sample_history_counts :
  let w := fst (run_ops Sample.history Sample.empty_world ∅) in
  fst (get_page_count "doc-1" w) = Ok 2%nat
  ∧ fst (get_page_ocr "doc-1" 2 w) = Ok None
  ∧ fst (get_page_count "doc-2" w) = Ok 0%nat
  ∧ fst (get_page_count "doc-3" w) = Ok 0%nat.
Proof. vm_compute. repeat split. Qed.

(** ** Binary64 multiplication and the factor two *)

Module Binary64.

Lemma digits2_pos_size p : digits2_pos p = Pos.size p.
Proof. induction p as [p IH|p IH|]; simpl; congruence. Qed.

Lemma digits2_pos_log2 p : Z.pos (digits2_pos p) = Z.log2 (Z.pos p) + 1.
Proof.
  rewrite digits2_pos_size.
  destruct p as [p|p|]; simpl; lia.
Qed.

Lemma digits2_pos_mul p q :
  Z.pos (digits2_pos p) + Z.pos (digits2_pos q) - 1
  ≤ Z.pos (digits2_pos (p * q)).
Proof.
  rewrite !digits2_pos_log2, Pos2Z.inj_mul.
  pose proof (Z.log2_mul_below (Z.pos p) (Z.pos q)). lia.
Qed.

(** The exponent a shift leaves, and the shift at the next exponent. *)
Lemma shr_exp_succ mrs e n n' :
  n = n' ∨ (n ≤ 0 ∧ n' ≤ 0) →
  shr mrs (e + 1) n' = (fst (shr mrs e n), snd (shr mrs e n) + 1)
  ∧ snd (shr mrs e n) = e + Z.max 0 n.
Proof.
  intros [<-|[Hn Hn']].
  - destruct n; simpl; split; try f_equal; lia.
  - destruct n, n'; simpl; split; try f_equal; lia.
Qed.

(** Away from the subnormal range, rounding at the next exponent gives the
    same mantissa with the next exponent. *)
Lemma binary_round_aux_succ s m E :
  emin < Z.pos (digits2_pos m) + E - prec →
  ∃ mrs e,
    emin < e
    ∧ binary_round_aux prec emax s (Z.pos m) E loc_Exact = round_finish s mrs e
    ∧ binary_round_aux prec emax s (Z.pos m) (E + 1) loc_Exact
      = round_finish s mrs (e + 1).
Proof.
  intros Hnorm. unfold binary_round_aux, shr_fexp.
  set (r0 := shr_record_of_loc (Z.pos m) loc_Exact).
  change (Zdigits2 (Z.pos m)) with (Z.pos (digits2_pos m)).
  set (n1 := fexp prec emax (Z.pos (digits2_pos m) + E) - E).
  set (n1' := fexp prec emax (Z.pos (digits2_pos m) + (E + 1)) - (E + 1)).
  assert (Hn1 : n1 = n1').
  { unfold n1, n1', fexp, SpecFloat.emin, prec, emax in *. lia. }
  destruct (shr_exp_succ r0 E n1 n1' (or_introl Hn1)) as [-> He'].
  destruct (shr r0 E n1) as [mrs' e'] eqn:Hshr1. cbn [fst snd] in *.
  assert (Hmin : emin < e').
  { rewrite He'. unfold n1, fexp, SpecFloat.emin, prec, emax in *. lia. }
  set (m' := round_nearest_even (shr_m mrs') (loc_of_shr_record mrs')).
  set (r1 := shr_record_of_loc m' loc_Exact).
  set (n2 := fexp prec emax (Zdigits2 m' + e') - e').
  set (n2' := fexp prec emax (Zdigits2 m' + (e' + 1)) - (e' + 1)).
  assert (Hn2 : n2 = n2' ∨ (n2 ≤ 0 ∧ n2' ≤ 0)).
  { unfold n2, n2', fexp, SpecFloat.emin, prec, emax in *. lia. }
  destruct (shr_exp_succ r1 e' n2 n2' Hn2) as [-> He''].
  destruct (shr r1 e' n2) as [mrs'' e''] eqn:Hshr2. cbn [fst snd] in *.
  exists mrs'', e''. split; [lia|]. done.
Qed.

(** Twice a normal number: the same mantissa at the next exponent, or
    infinity past the largest exponent. *)
Lemma SFmul_two_finite s m e :
  digits2_pos m = 53%positive → emin < e →
  SFmul prec emax (S754_finite false 4503599627370496 (-51)) (S754_finite s m e)
  = if e + 1 <=? emax - prec then S754_finite s m (e + 1) else S754_infinity s.
Proof.
  intros Hd He. unfold SFmul. cbn [xorb].
  unfold binary_round_aux, shr_fexp, Zdigits2.
  change (4503599627370496 * m)%positive with (Pos.iter xO m 52).
  cbn [Pos.iter digits2_pos]. rewrite Hd.
  match goal with
  | |- context [Z.pos ?d + (-51 + e)] =>
      let v := eval vm_compute in d in change d with v
  end.
  replace (fexp prec emax (105 + (-51 + e)) - (-51 + e)) with 52
    by (unfold fexp, SpecFloat.emin, prec, emax in *; lia).
  cbn [shr shr_record_of_loc].
  match goal with
  | |- context [SpecFloat.iter_pos shr_1 52 ?r] =>
      change (SpecFloat.iter_pos shr_1 52 r)
        with {| shr_m := Z.pos m; shr_r := false; shr_s := false |}
  end.
  cbn [shr_m loc_of_shr_record round_nearest_even Zdigits2].
  rewrite Hd.
  replace (fexp prec emax (53 + (-51 + e + 52)) - (-51 + e + 52)) with 0
    by (unfold fexp, SpecFloat.emin, prec, emax in *; lia).
  cbn [shr shr_m].
  replace (-51 + e + 52) with (e + 1) by lia.
  done.
Qed.

Lemma Prim2SF_zoom_150 :
  Prim2SF zoom_150 = S754_finite false 4691249611844267 (-51).
Proof. vm_compute. reflexivity. Qed.

Lemma Prim2SF_zoom_300 :
  Prim2SF zoom_300 = S754_finite false 4691249611844267 (-50).
Proof. vm_compute. reflexivity. Qed.

Lemma Prim2SF_two : Prim2SF f2 = S754_finite false 4503599627370496 (-51).
Proof. vm_compute. reflexivity. Qed.

(** A finite number that is not subnormal has a full mantissa and an
    exponent in range. *)
Lemma not_subnormal_finite x s m e :
  not_subnormal x → Prim2SF x = S754_finite s m e →
  digits2_pos m = 53%positive ∧ emin ≤ e.
Proof.
  intros [Hp Hn] Hx.
  pose proof (Prim2SF_valid x) as Hv.
  rewrite classify_spec in Hp, Hn. rewrite Hx in Hp, Hn, Hv.
  unfold SF64classify, SFclassify in Hp, Hn.
  assert (Hd : Z.pos (digits2_pos m) = prec).
  { destruct (Z.pos (digits2_pos m) =? prec) eqn:Hdig; [lia|].
    by destruct s. }
  split; [unfold prec in Hd; lia|].
  unfold valid_binary, bounded, canonical_mantissa in Hv.
  apply andb_true_iff in Hv as [Hc _]. apply Z.eqb_eq in Hc.
  unfold fexp in Hc. lia.
Qed.

(** Scaling by [300 / 72.0] is twice scaling by [150 / 72.0], for every
    float that is not subnormal. *)
Lemma fmul_zoom_300_double x :
  not_subnormal x → fmul x zoom_300 = fmul f2 (fmul x zoom_150).
Proof.
  intros Hx. apply Prim2SF_inj. unfold fmul.
  rewrite (mul_spec f2), !mul_spec.
  pose proof (Prim2SF_valid (PrimFloat.mul x zoom_150)) as Hv.
  rewrite mul_spec in Hv.
  rewrite Prim2SF_zoom_300, Prim2SF_two.
  rewrite Prim2SF_zoom_150 in *.
  unfold SF64mul in *.
  set (dbl := SFmul prec emax (S754_finite false 4503599627370496 (-51))).
  destruct (Prim2SF x) as [s|s| |s m e] eqn:Hsf.
  - by destruct s.
  - by destruct s.
  - done.
  - destruct (not_subnormal_finite x s m e Hx Hsf) as [Hd He].
    cbn [SFmul] in *.
    set (s' := xorb s false) in *.
    set (M := (m * 4691249611844267)%positive) in *.
    replace (e + -50) with (e + -51 + 1) by lia.
    destruct (binary_round_aux_succ s' M (e + -51)) as (mrs & e' & He' & H1 & H2).
    { pose proof (digits2_pos_mul m 4691249611844267) as Hmul.
      rewrite Hd in Hmul. fold M in Hmul.
      change (digits2_pos 4691249611844267) with 53%positive in Hmul.
      unfold SpecFloat.emin, prec, emax in *. lia. }
    rewrite H1 in Hv. rewrite H1, H2. clear H1 H2.
    unfold round_finish in *.
    destruct (shr_m mrs) as [|m'|m'].
    + by destruct s'.
    + destruct (e' <=? emax - prec) eqn:Hle.
      * unfold dbl. rewrite SFmul_two_finite; [done| |done].
        unfold valid_binary, bounded, canonical_mantissa in Hv.
        apply andb_true_iff in Hv as [Hc _]. apply Z.eqb_eq in Hc.
        unfold fexp, SpecFloat.emin, prec, emax in *. lia.
      * assert ((e' + 1 <=? emax - prec) = false) as -> by lia.
        by destruct s'.
    + done.
Qed.

End Binary64.

(** ** Extraction at 300 and at 150 dpi *)

Lemma zoom_of_dpi_150 : zoom_of_dpi 150 = Ok zoom_150.
Proof. vm_compute. reflexivity. Qed.

Lemma zoom_of_dpi_300 : zoom_of_dpi 300 = Ok zoom_300.
Proof. vm_compute. reflexivity. Qed.

Lemma region_of_span_300 sp :
  regular_span sp →
  region_of_span zoom_300 sp = double_region <$> region_of_span zoom_150 sp.
Proof.
  unfold regular_span, region_of_span.
  destruct (strip (span_text sp)) as [|c t]; [done|].
  destruct (span_bbox sp) as [[[x0 y0] x1] y1].
  intros (H0 & H1 & H2 & H3). unfold double_region. simpl.
  by rewrite !Binary64.fmul_zoom_300_double.
Qed.

Lemma omap_region_of_span_300 spans :
  Forall regular_span spans →
  omap (region_of_span zoom_300) spans
  = map double_region (omap (region_of_span zoom_150) spans).
Proof.
  induction 1 as [|sp rest Hsp _ IH]; [done|].
  cbn [omap list_omap]. rewrite region_of_span_300 by done.
  destruct (region_of_span zoom_150 sp); simpl; by rewrite IH.
Qed.

(** For a document whose span coordinates are not subnormal floats. *)
Lemma extract_300_doubles_150_regular pdf_path w doc pages150 w' :
  readable_pdf w pdf_path doc →
  (∀ pg blocks sp,
     pg ∈ doc → get_text pg = Ok blocks → sp ∈ text_spans blocks →
     regular_span sp) →
  extract_text_regions pdf_path 150 w = (Ok pages150, w') →
  extract_text_regions pdf_path 300 w
  = (Ok (map (map double_region) pages150), w').
Proof.
  intros Hdoc Hreg. rewrite !extract_text_regions_unfold.
  assert (fitz_open pdf_path w = (Ok doc, set_handles S w)) as ->
    by by apply fitz_open_Ok.
  rewrite zoom_of_dpi_150, zoom_of_dpi_300.
  destruct (sequence (map get_text doc)) as [bss|e] eqn:Hseq; [|done].
  intros [= <- <-]. do 2 f_equal.
  apply sequence_Ok_Forall2 in Hseq. clear Hdoc.
  induction Hseq as [|pg bs doc' bss' Hpg _ IH]; [done|].
  simpl. f_equal.
  - apply omap_region_of_span_300, Forall_forall. intros sp Hsp.
    apply (Hreg pg bs sp); [apply list_elem_of_here|done|done].
  - apply IH. intros pg' bs' sp Hin. apply Hreg. by apply list_elem_of_further.
Qed.

(** No binary32 number is a subnormal binary64 number: the least positive
    one, 2^-149, is far above 2^-1022. *)
Lemma single_precision_not_subnormal x :
  single_precision x = true → not_subnormal x.
Proof.
  unfold single_precision, not_subnormal. rewrite !classify_spec.
  pose proof (Prim2SF_valid x) as Hv.
  destruct (Prim2SF x) as [s|s| |s m e] eqn:Hsf;
    try (intros _; split; by destruct s); [by intros _|].
  intros [_ Hmod%Z.eqb_eq]%andb_true_iff.
  assert (Hd : Z.pos (digits2_pos m) = prec).
  { unfold valid_binary, bounded, canonical_mantissa in Hv.
    apply andb_true_iff in Hv as [Hc%Z.eqb_eq _].
    destruct (decide (Z.pos (digits2_pos m) = prec)) as [|Hne]; [done|].
    exfalso.
    assert (He : e = -1074)
      by (unfold fexp, SpecFloat.emin, prec, emax in *; lia).
    subst e. change (Z.max (-1074 + 29) (-149) - -1074) with 925 in Hmod.
    assert (Hlt : Z.pos m < 2 ^ 53).
    { apply Z.log2_lt_pow2; [lia|].
      pose proof (Binary64.digits2_pos_log2 m).
      unfold fexp, SpecFloat.emin, prec, emax in *. lia. }
    assert (Hle : 2 ^ 53 ≤ 2 ^ 925) by (apply Z.pow_le_mono_r; lia).
    rewrite Z.mod_small in Hmod by lia. lia. }
  unfold SF64classify, SFclassify. rewrite Hd, Z.eqb_refl.
  split; by destruct s.
Qed.

Lemma single_precision_regular sp :
  single_precision_span sp = true → regular_span sp.
Proof.
  unfold single_precision_span, regular_span.
  destruct (span_bbox sp) as [[[x0 y0] x1] y1].
  intros [[[H0 H1]%andb_true_iff H2]%andb_true_iff H3]%andb_true_iff.
  repeat split; by apply single_precision_not_subnormal.
Qed.

(** C3. For a PDF whose span coordinates are single-precision numbers, as
    those PyMuPDF hands over are, extraction at 300 dpi yields, page by
    page and region by region, the regions of extraction at 150 dpi with
    every bounding-box coordinate multiplied by 2, exactly. *)
Theorem extract_300_doubles_150 pdf_path w doc pages150 w' :
  readable_pdf w pdf_path doc →
  (∀ pg blocks sp,
     pg ∈ doc → get_text pg = Ok blocks → sp ∈ text_spans blocks →
     single_precision_span sp = true) →
  extract_text_regions pdf_path 150 w = (Ok pages150, w') →
  extract_text_regions pdf_path 300 w
  = (Ok (map (map double_region) pages150), w').
Proof.
  intros Hdoc Hsingle Hex.
  apply (extract_300_doubles_150_regular pdf_path w doc); [done| |done].
  intros pg blocks sp Hpg Htxt Hsp.
  by apply single_precision_regular, (Hsingle pg blocks).
Qed.

Lemma extract_300_doubles_150_witness :
  extract_text_regions Sample.pdf_path 300 (Sample.world_with Fixture.padded_pdf)
  = (Ok (map (map double_region)
           [[Fixture.padded_region; Sample.hello_region]; []]),
     Sample.world_with Fixture.padded_pdf).
Proof.
  apply (extract_300_doubles_150 Sample.pdf_path
           (Sample.world_with Fixture.padded_pdf)
           [Fixture.padded_page; Sample.page2]).
  - exists Fixture.padded_pdf. split; reflexivity.
  - intros pg blocks sp Hpg Htxt Hsp.
    assert (Hcase : sp = Fixture.padded ∨ sp = Sample.blank ∨ sp = Sample.hello).
    { apply list_elem_of_In in Hpg. simpl in Hpg.
      destruct Hpg as [<-|[<-|[]]]; simpl in Htxt;
        injection Htxt as <-; apply list_elem_of_In in Hsp; simpl in Hsp.
      - destruct Hsp as [<-|[<-|[<-|[]]]]; auto.
      - destruct Hsp. }
    destruct Hcase as [-> | [-> | ->]]; vm_compute; reflexivity.
  - vm_compute. reflexivity.
Defined.

(** Single precision matters: on a coordinate that is a subnormal binary64
    number, which no binary32 number is, the two roundings part.  The left
    edge 5 * 2^-1074 becomes 21 * 2^-1074 at 300 dpi, and 10 * 2^-1074 at
    150 dpi, twice which is 20 * 2^-1074. *)
Lemma subnormal_box_not_doubled :
  ∃ pages150 pages300 w',
    extract_text_regions Sample.pdf_path 150 (Sample.world_with Sample.tiny_pdf)
    = (Ok pages150, w')
    ∧ extract_text_regions Sample.pdf_path 300 (Sample.world_with Sample.tiny_pdf)
      = (Ok pages300, w')
    ∧ single_precision 0x5p-1074 = false
    ∧ Sample.first_x pages150 = 0xap-1074%float
    ∧ Sample.first_x pages300 = 0x15p-1074%float
    ∧ pages300 ≠ map (map double_region) pages150.
Proof.
  eexists _, _, _.
  split; [vm_compute; reflexivity|].
  split; [vm_compute; reflexivity|].
  split; [vm_compute; reflexivity|].
  split; [vm_compute; reflexivity|].
  split; [vm_compute; reflexivity|].
  intros H.
  apply (f_equal (fun ps => PrimFloat.eqb (Sample.first_x ps) 0x15p-1074%float)) in H.
  vm_compute in H. discriminate H.
Qed.

(** * Further properties of the code *)

(** ** Allocation is idempotent *)

Lemma mkdir_walk_noop base todo fs :
  (∀ k, (0 < k ≤ length todo)%nat → fs !! (base ++ take k todo) = Some Dir) →
  mkdir_walk base todo fs = (Ok tt, fs).
Proof.
  revert base. induction todo as [|c rest IH]; intros base Hdirs; [done|].
  simpl. pose proof (Hdirs 1%nat) as H1. simpl in H1. rewrite take_0 in H1.
  rewrite H1 by lia.
  apply IH. intros k Hk. specialize (Hdirs (S k)). simpl in Hdirs.
  rewrite <- app_assoc. apply Hdirs. lia.
Qed.

Lemma set_files_const_id w : set_files (fun _ => files w) w = w.
Proof. by destruct w. Qed.

(** X1. [create_document_storage] is idempotent: called again after it
    returned, it returns the same directory and leaves the world as it
    is. *)
Theorem create_document_storage_idempotent doc_id w dir w' :
  create_document_storage doc_id w = (Ok dir, w') →
  create_document_storage doc_id w' = (Ok dir, w').
Proof.
  unfold create_document_storage, bind, mkdir_parents, ret.
  destruct (mkdir_walk [] (_doc_dir doc_id ++ ["pages"%string]) (files w))
    as [[[]|e1] fs1] eqn:H1; [|done].
  cbn [files set_files].
  destruct (mkdir_walk [] (_doc_dir doc_id ++ ["ocr"%string]) fs1)
    as [[[]|e2] fs2] eqn:H2; [|done].
  intros [= <- <-]. cbn [files].
  pose proof (mkdir_walk_subseteq _ _ _ _ _ H2) as S2.
  pose proof (mkdir_walk_Ok_prefixes _ _ _ _ H1) as P1.
  pose proof (mkdir_walk_Ok_prefixes _ _ _ _ H2) as P2.
  destruct w as [fs flt h out]. unfold set_files. cbn [files faults handles stdout].
  rewrite (mkdir_walk_noop [] (_doc_dir doc_id ++ ["pages"%string]) fs2).
  2:{ intros k Hk. eapply lookup_weaken; [|exact S2]. by apply P1. }
  cbn [files]. rewrite (mkdir_walk_noop [] (_doc_dir doc_id ++ ["ocr"%string]) fs2).
  2:{ intros k Hk. by apply P2. }
  done.
Qed.

Lemma create_document_storage_idempotent_witness :
  create_document_storage "doc-1" Sample.allocated
  = (Ok (_doc_dir "doc-1"), Sample.allocated).
Proof.
  apply (create_document_storage_idempotent "doc-1" Sample.empty_world).
  vm_compute. reflexivity.
Defined.

(** ** What the getters depend on *)

Lemma get_page_image_path_ext d n w w' :
  (is_Some (files w !! page_image_file d n)
   ↔ is_Some (files w' !! page_image_file d n)) →
  fst (get_page_image_path d n w) = fst (get_page_image_path d n w').
Proof.
  intros Hiff. unfold get_page_image_path, bind, path_exists.
  fold (page_image_file d n). rewrite !node_at_image_file.
  rewrite (bool_decide_ext _ _ Hiff). by case_bool_decide.
Qed.

Lemma get_page_ocr_ext d n w w' :
  files w !! page_ocr_file d n = files w' !! page_ocr_file d n →
  fst (get_page_ocr d n w) = fst (get_page_ocr d n w').
Proof.
  intros Heq. unfold get_page_ocr, bind, path_exists, read_json.
  fold (page_ocr_file d n). rewrite !node_at_ocr_file, Heq.
  case_bool_decide; cbn [negb]; [|done].
  rewrite !node_at_ocr_file, Heq.
  by destruct (files w' !! page_ocr_file d n) as [[|[?|?|?]]|].
Qed.

Lemma glob_pages_length_exact fs dir (names : list string) :
  NoDup names →
  (∀ name, name ∈ names
           ↔ glob_page_png name = true ∧ is_Some (fs !! (dir ++ [name]))) →
  length (glob_pages fs dir) = length names.
Proof.
  intros Hnd Hnames. apply Permutation_length, NoDup_Permutation; [|done|].
  - apply NoDup_filter, NoDup_listdir.
  - intros name. unfold glob_pages.
    by rewrite list_elem_of_filter, elem_of_listdir, Hnames.
Qed.

Lemma glob_pages_length_ext fs fs' dir :
  (∀ name, is_Some (fs !! (dir ++ [name])) ↔ is_Some (fs' !! (dir ++ [name]))) →
  length (glob_pages fs dir) = length (glob_pages fs' dir).
Proof.
  intros Hiff. apply glob_pages_length_exact.
  - apply NoDup_filter, NoDup_listdir.
  - intros name. unfold glob_pages.
    by rewrite list_elem_of_filter, elem_of_listdir, Hiff.
Qed.

Lemma get_page_count_ext d w w' :
  (is_Some (files w !! (_doc_dir d ++ ["pages"%string]))
   ↔ is_Some (files w' !! (_doc_dir d ++ ["pages"%string]))) →
  (∀ name, is_Some (files w !! ((_doc_dir d ++ ["pages"%string]) ++ [name]))
           ↔ is_Some (files w' !! ((_doc_dir d ++ ["pages"%string]) ++ [name]))) →
  fst (get_page_count d w) = fst (get_page_count d w').
Proof.
  intros Hdir Hkids. unfold get_page_count, bind, path_exists.
  change (node_at ?fs (_doc_dir d ++ ["pages"%string]))
    with (fs !! (_doc_dir d ++ ["pages"%string])).
  rewrite (bool_decide_ext _ _ Hdir). case_bool_decide; cbn [negb]; [|done].
  cbn [fst]. by rewrite (glob_pages_length_ext _ _ _ Hkids).
Qed.


(** ** Documents are stored apart *)








(** X3. Images and region lists are stored apart: saving a region list
    changes no image lookup and no page count, of any document, and saving
    an image changes no region lookup. *)
Theorem image_and_region_data_independent d n img rs w d' m :
  fst (get_page_ocr d' m (snd (save_page_image d n img w)))
  = fst (get_page_ocr d' m w)
  ∧ fst (get_page_image_path d' m (snd (save_page_ocr d n rs w)))
    = fst (get_page_image_path d' m w)
  ∧ fst (get_page_count d' (snd (save_page_ocr d n rs w)))
    = fst (get_page_count d' w).
Proof.
  split; [|split].
  - destruct (save_page_image d n img w) as [r w'] eqn:Hs.
    apply save_page_image_inv in Hs as [(-> & -> & _)|(e & -> & ->)]; [|done].
    apply get_page_ocr_ext. unfold set_files. cbn [snd files].
    apply lookup_insert_ne, page_image_file_ne_ocr.
  - destruct (save_page_ocr d n rs w) as [r w'] eqn:Hs.
    apply save_page_ocr_inv in Hs as [(-> & -> & _)|(e & -> & ->)]; [|done].
    apply get_page_image_path_ext. unfold set_files. cbn [snd files].
    rewrite lookup_insert_ne; [done|]. apply not_eq_sym, page_image_file_ne_ocr.
  - destruct (save_page_ocr d n rs w) as [r w'] eqn:Hs.
    apply save_page_ocr_inv in Hs as [(-> & -> & _)|(e & -> & ->)]; [|done].
    apply get_page_count_ext; unfold set_files; cbn [snd files].
    + rewrite lookup_insert_ne; [done|]. apply page_ocr_file_ne_dir.
    + intros name. rewrite lookup_insert_ne; [done|].
      unfold page_ocr_file, _doc_dir. simpl. intros H. by simplify_eq.
Qed.

(** ** Saving an image *)

(** X4. Once the document's storage is allocated and the write is not
    refused, [save_page_image] returns the path of the image file, the file
    then holds the image (whatever it held before), and
    [get_page_image_path] returns that path. *)
Theorem save_then_get_page_image doc_id page_num img w :
  node_at (files w) (_doc_dir doc_id ++ ["pages"%string]) = Some Dir →
  files w !! page_image_file doc_id page_num ≠ Some Dir →
  page_image_file doc_id page_num ∉ faults w →
  ∃ w',
    save_page_image doc_id page_num img w
    = (Ok (page_image_file doc_id page_num), w')
    ∧ files w' !! page_image_file doc_id page_num = Some (File (PngFile img))
    ∧ get_page_image_path doc_id page_num w'
      = (Ok (Some (page_image_file doc_id page_num)), w').
Proof.
  intros Hdir Hnode Hfault.
  exists (set_files
            (fun fs => <[page_image_file doc_id page_num := File (PngFile img)]> fs) w).
  split; [|split].
  - unfold save_page_image, bind. fold (page_image_file doc_id page_num).
    by rewrite write_file_Ok.
  - unfold set_files. cbn [files]. apply lookup_insert_eq.
  - eapply get_page_image_path_Some. unfold set_files. cbn [files].
    apply lookup_insert_eq.
Qed.

Lemma save_then_get_page_image_witness :
  ∃ w',
    save_page_image "doc-1" 7 (PngImage Sample.blank_pixmap) Sample.allocated
    = (Ok (page_image_file "doc-1" 7), w')
    ∧ files w' !! page_image_file "doc-1" 7
      = Some (File (PngFile (PngImage Sample.blank_pixmap)))
    ∧ get_page_image_path "doc-1" 7 w'
      = (Ok (Some (page_image_file "doc-1" 7)), w').
Proof.
  apply (save_then_get_page_image "doc-1" 7 (PngImage Sample.blank_pixmap)
           Sample.allocated).
  - vm_compute. reflexivity.
  - vm_compute. discriminate.
  - vm_compute. set_solver.
Defined.

Lemma get_page_count_glob d w :
  is_Some (files w !! (_doc_dir d ++ ["pages"%string])) →
  get_page_count d w
  = (Ok (length (glob_pages (files w) (_doc_dir d ++ ["pages"%string]))), w).
Proof.
  intros Hdir. unfold get_page_count, bind, path_exists.
  change (node_at ?fs (_doc_dir d ++ ["pages"%string]))
    with (fs !! (_doc_dir d ++ ["pages"%string])).
  by rewrite bool_decide_eq_true_2.
Qed.

(** X5. A call of [save_page_image] that returns raises the page count of
    the document by one when the page had no image, and leaves it as it was
    when it overwrote one. *)
Theorem save_page_image_page_count doc_id page_num img w p w' :
  save_page_image doc_id page_num img w = (Ok p, w') →
  ∃ c,
    get_page_count doc_id w = (Ok c, w)
    ∧ get_page_count doc_id w'
      = (Ok (if bool_decide (is_Some (files w !! page_image_file doc_id page_num))
             then c else S c), w').
Proof.
  intros Hs.
  apply save_page_image_inv in Hs as [(_ & -> & Hdir)|(e & [=] & _)].
  set (dir := _doc_dir doc_id ++ ["pages"%string]) in *.
  set (fs := files w).
  exists (length (glob_pages fs dir)). split.
  { apply get_page_count_glob. by eexists. }
  rewrite get_page_count_glob.
  2:{ unfold set_files. cbn [files]. rewrite lookup_insert_ne; [by eexists|].
      apply page_image_file_ne_dir. }
  unfold set_files. cbn [files]. fold fs dir. do 2 f_equal.
  assert (Hfile : page_image_file doc_id page_num = dir ++ [page_png page_num]).
  { unfold page_image_file, dir. by rewrite app_assoc. }
  assert (Hkids : ∀ name, name ≠ page_png page_num →
            <[page_image_file doc_id page_num := File (PngFile img)]> fs
              !! (dir ++ [name]) = fs !! (dir ++ [name])).
  { intros name Hname. apply lookup_insert_ne. rewrite Hfile.
    intros H. apply app_inv_head in H. congruence. }
  case_bool_decide as Hold.
  - apply glob_pages_length_ext. intros name.
    destruct (decide (name = page_png page_num)) as [->|Hname].
    + rewrite <- Hfile, lookup_insert_eq. split; [done|by eexists].
    + by rewrite Hkids.
  - rewrite (glob_pages_length_exact _ dir
               (page_png page_num :: glob_pages fs dir)); [done| |].
    + constructor; [|apply NoDup_filter, NoDup_listdir].
      unfold glob_pages. rewrite list_elem_of_filter, elem_of_listdir.
      intros [_ Hsome]. apply Hold. by rewrite Hfile.
    + intros name. rewrite elem_of_cons. unfold glob_pages.
      rewrite list_elem_of_filter, elem_of_listdir.
      destruct (decide (name = page_png page_num)) as [->|Hname].
      * rewrite <- Hfile, lookup_insert_eq. split; [|by left].
        intros _. split; [apply glob_page_png_page|by eexists].
      * rewrite Hkids by done. split; [by intros [?|?]|by right].
Qed.

Lemma save_page_image_page_count_witness :
  ∃ c,
    get_page_count "doc-1" Sample.allocated = (Ok c, Sample.allocated)
    ∧ get_page_count "doc-1"
        (snd (save_page_image "doc-1" 7 (PngImage Sample.blank_pixmap)
                Sample.allocated))
      = (Ok (if bool_decide
                  (is_Some (files Sample.allocated !! page_image_file "doc-1" 7))
             then c else S c),
         snd (save_page_image "doc-1" 7 (PngImage Sample.blank_pixmap)
                Sample.allocated)).
Proof.
  apply (save_page_image_page_count "doc-1" 7 (PngImage Sample.blank_pixmap)
           Sample.allocated (page_image_file "doc-1" 7)).
  vm_compute. reflexivity.
Defined.

(** ** Every entry lies in a directory *)











(** ** Cleaning up *)





(** A regular file at the directory of the document is not removed. *)
Lemma cleanup_document_regular_file doc_id w c :
  files w !! _doc_dir doc_id = Some (File c) →
  cleanup_document doc_id w = (Raise (NotADirectoryError (_doc_dir doc_id)), w).
Proof.
  intros Hnode. rewrite cleanup_document_effect.
  change (node_at (files w) (_doc_dir doc_id))
    with (files w !! _doc_dir doc_id).
  by rewrite Hnode.
Qed.


(** ** The pipeline *)

Lemma readable_pdf_unique w w' p doc doc' :
  files w' = files w →
  readable_pdf w p doc → readable_pdf w' p doc' → doc = doc'.
Proof.
  intros Hf (u & Hu & Hdoc) (u' & Hu' & Hdoc'). rewrite Hf in Hu'.
  congruence.
Qed.

Lemma pdf_to_page_images_Ok p dpi w images w' :
  pdf_to_page_images p dpi w = (Ok images, w') →
  w' = w ∧ ∃ doc, readable_pdf w p doc ∧ length images = length doc.
Proof.
  rewrite pdf_to_page_images_unfold.
  destruct (fitz_open p w) as [[doc|e] w1] eqn:Hopen; [|done].
  apply fitz_open_Ok in Hopen as [Hdoc ->].
  destruct (zoom_of_dpi dpi); [|done].
  destruct (sequence _) as [pixs|] eqn:Hseq; [|done].
  intros [= <- <-]. split; [apply set_handles_pred_S|].
  exists doc. split; [done|]. apply sequence_Ok_length in Hseq.
  by rewrite !length_map in *.
Qed.

Lemma extract_text_regions_Ok p dpi w all_pages w' :
  extract_text_regions p dpi w = (Ok all_pages, w') →
  w' = w ∧ ∃ doc, readable_pdf w p doc ∧ length all_pages = length doc.
Proof.
  rewrite extract_text_regions_unfold.
  destruct (fitz_open p w) as [[doc|e] w1] eqn:Hopen; [|done].
  apply fitz_open_Ok in Hopen as [Hdoc ->].
  destruct (zoom_of_dpi dpi); [|done].
  destruct (sequence _) as [bss|] eqn:Hseq; [|done].
  intros [= <- <-]. split; [apply set_handles_pred_S|].
  exists doc. split; [done|]. apply sequence_Ok_length in Hseq.
  by rewrite !length_map in *.
Qed.

(** X8. When [process_pdf] returns, it returns as many region lists as
    images, has closed every document it opened, has left the disk alone
    and has printed its three lines, in order. *)
Theorem process_pdf_parallel pdf_path dpi w images text_regions w' :
  process_pdf pdf_path dpi w = (Ok (images, text_regions), w') →
  length images = length text_regions
  ∧ handles w' = handles w
  ∧ files w' = files w
  ∧ stdout w'
    = stdout w ++ [LogRendering dpi; LogExtracting (length images);
                   LogDone (list_sum (map (fun r => length r) text_regions))].
Proof.
  unfold process_pdf, bind at 1, print. unfold bind at 1.
  destruct (pdf_to_page_images pdf_path dpi _) as [[imgs|e] w1] eqn:H1; [|done].
  apply pdf_to_page_images_Ok in H1 as [-> (doc & Hdoc & Hlen)].
  unfold bind at 1. unfold bind at 1.
  destruct (extract_text_regions pdf_path dpi _) as [[regs|e] w2] eqn:H2; [|done].
  apply extract_text_regions_Ok in H2 as [-> (doc' & Hdoc' & Hlen')].
  unfold bind, ret. intros [= <- <- <-].
  assert (doc = doc') as <-.
  { eapply readable_pdf_unique; [|exact Hdoc|exact Hdoc']. done. }
  split; [congruence|]. split; [done|]. split; [done|].
  cbn [stdout set_stdout]. unfold set_stdout. cbn [stdout].
  by rewrite <- !app_assoc.
Qed.

Lemma process_pdf_parallel_witness :
  length Sample.images = length Sample.ocr_results
  ∧ handles (snd (process_pdf Sample.pdf_path 150 (Sample.world_with Sample.pdf)))
    = handles (Sample.world_with Sample.pdf)
  ∧ files (snd (process_pdf Sample.pdf_path 150 (Sample.world_with Sample.pdf)))
    = files (Sample.world_with Sample.pdf)
  ∧ stdout (snd (process_pdf Sample.pdf_path 150 (Sample.world_with Sample.pdf)))
    = stdout (Sample.world_with Sample.pdf)
      ++ [LogRendering 150; LogExtracting (length Sample.images);
          LogDone (list_sum (map (fun r => length r) Sample.ocr_results))].
Proof.
  apply (process_pdf_parallel Sample.pdf_path 150 (Sample.world_with Sample.pdf)).
  vm_compute. reflexivity.
Defined.

Lemma sequence_first_Raise {A B} (f : A → result B) before bad after e :
  Forall (fun a => ∃ b, f a = Ok b) before → f bad = Raise e →
  sequence (map f (before ++ bad :: after)) = Raise e.
Proof.
  intros Hok Hbad. induction Hok as [|a rest [b Hb] _ IH]; simpl.
  - by rewrite Hbad.
  - by rewrite Hb, IH.
Qed.

(** X9. The first page that fails decides: when the pages before it render
    (or yield their text) and it raises [e], the rasterizer (or the
    extractor) raises [e], whatever the pages after it would do, and no
    partial list is returned. *)
Theorem first_failing_page_decides pdf_path dpi w zoom before bad after :
  readable_pdf w pdf_path (before ++ bad :: after) →
  zoom_of_dpi dpi = Ok zoom →
  (∀ e, Forall (fun pg => ∃ pix, get_pixmap pg zoom = Ok pix) before →
        get_pixmap bad zoom = Raise e →
        fst (pdf_to_page_images pdf_path dpi w) = Raise e)
  ∧ (∀ e, Forall (fun pg => ∃ blocks, get_text pg = Ok blocks) before →
          get_text bad = Raise e →
          fst (extract_text_regions pdf_path dpi w) = Raise e).
Proof.
  intros Hdoc Hz.
  assert (Hopen : fitz_open pdf_path w
                  = (Ok (before ++ bad :: after), set_handles S w))
    by by apply fitz_open_Ok.
  split; intros e Hok Hbad.
  - rewrite pdf_to_page_images_unfold, Hopen, Hz.
    by rewrite (sequence_first_Raise (fun pg => get_pixmap pg zoom) _ _ _ e).
  - rewrite extract_text_regions_unfold, Hopen, Hz.
    by rewrite (sequence_first_Raise get_text _ _ _ e).
Qed.

Lemma first_failing_page_decides_witness :
  (∀ e, Forall (fun pg => ∃ pix, get_pixmap pg zoom_150 = Ok pix) [Sample.page1] →
        get_pixmap Sample.broken_page zoom_150 = Raise e →
        fst (pdf_to_page_images Sample.pdf_path 150
               (Sample.world_with Sample.broken_pdf)) = Raise e)
  ∧ (∀ e, Forall (fun pg => ∃ blocks, get_text pg = Ok blocks) [Sample.page1] →
          get_text Sample.broken_page = Raise e →
          fst (extract_text_regions Sample.pdf_path 150
                 (Sample.world_with Sample.broken_pdf)) = Raise e).
Proof.
  apply (first_failing_page_decides Sample.pdf_path 150
           (Sample.world_with Sample.broken_pdf) zoom_150
           [Sample.page1] Sample.broken_page []).
  - exists Sample.broken_pdf. split; reflexivity.
  - vm_compute. reflexivity.
Defined.

(** X10. Only text blocks count, and extraction only appends: the regions
    of a page are those already collected followed by the regions of its
    text blocks, the other blocks (images) contributing nothing wherever
    they stand. *)
Theorem block_loop_text_blocks_only zoom blocks regions :
  block_loop zoom blocks regions
  = regions ++ block_loop zoom (filter (fun b => is_text_block b = true) blocks) [].
Proof.
  rewrite !block_loop_omap. simpl. f_equal. f_equal.
  induction blocks as [|b rest IH]; [done|].
  rewrite filter_cons. simpl.
  destruct (decide (is_text_block b = true)) as [Hty|Hty];
    unfold is_text_block in Hty.
  - simpl. by rewrite Hty, IH.
  - apply not_true_is_false in Hty. by rewrite Hty.
Qed.

(** X11. A path PyMuPDF cannot open is fatal at once and costs nothing:
    the rasterizer and the extractor raise the error of [fitz.open] and
    leave the world as it was, with no document open. *)
Theorem unopenable_pdf_raises pdf_path dpi w e :
  fst (fitz_open pdf_path w) = Raise e →
  pdf_to_page_images pdf_path dpi w = (Raise e, w)
  ∧ extract_text_regions pdf_path dpi w = (Raise e, w).
Proof.
  intros Hopen.
  assert (Hw : fitz_open pdf_path w = (Raise e, w)).
  { revert Hopen. unfold fitz_open.
    destruct (files w !! pdf_path) as [[|[?|?|u]]|]; simpl;
      try (by intros [= <-]).
    destruct (mupdf_document u); simpl; [done|]. by intros [= <-]. }
  by rewrite pdf_to_page_images_unfold, extract_text_regions_unfold, Hw.
Qed.

Lemma unopenable_pdf_raises_witness :
  pdf_to_page_images Sample.pdf_path 150 Sample.empty_world
  = (Raise (FileNotFoundError Sample.pdf_path), Sample.empty_world)
  ∧ extract_text_regions Sample.pdf_path 150 Sample.empty_world
    = (Raise (FileNotFoundError Sample.pdf_path), Sample.empty_world).
Proof.
  apply (unopenable_pdf_raises Sample.pdf_path 150 Sample.empty_world).
  reflexivity.
Defined.

(** ** Extraction at 72 dpi *)

Module UnitScale.





End UnitScale.



(** ** The upload handler, path by path *)

Lemma convert_document_unfold req w :
  convert_document req w
  = match convert_inner req (with_temp req w) with
    | (Ok r, w1) =>
        (Returned r, set_files (fun fs => delete (req_tmp_path req) fs) w1)
    | (Raise e, w1) =>
        (HTTPException 500 e,
         set_stdout (fun out => out ++ [LogError e])
           (set_files (fun fs => delete (req_tmp_path req) fs) w1))
    end.
Proof.
  unfold convert_document, bind at 1, write_temp. fold (with_temp req w).
  unfold try_finally.
  destruct (convert_inner req (with_temp req w)) as [[r|e] w1];
    by rewrite remove_temp_deletes.
Qed.

(** X13. The temporary file is removed exactly when the copy of the upload
    went through: after the copy, whatever the upload and whatever the
    outcome (a response or a 500), no file is at the temporary path when
    the handler is done; but when the copy itself raises, which happens
    before the [try] whose [finally] removes the file, the handler answers
    500, prints the error, and the file that was created stays. *)
Theorem temporary_file_removed_unless_copy_fails req w :
  convert_document_with (write_temp (req_tmp_path req) (req_file req)) req w
  = convert_document req w
  ∧ files (snd (convert_document req w)) !! req_tmp_path req = None
  ∧ ∀ partial e,
      ∃ w',
        convert_document_with (failing_copy (req_tmp_path req) partial e) req w
        = (HTTPException 500 e, w')
        ∧ files w' !! req_tmp_path req = Some (File (UploadedFile partial))
        ∧ files w' = <[req_tmp_path req := File (UploadedFile partial)]> (files w)
        ∧ stdout w' = stdout w ++ [LogError e]
        ∧ handles w' = handles w.
Proof.
  split; [done|]. split.
  - rewrite convert_document_unfold.
    destruct (convert_inner req (with_temp req w)) as [[r|e] w1];
      unfold set_stdout, set_files; cbn [snd files]; apply lookup_delete_eq.
  - intros partial e. eexists. split; [reflexivity|].
    unfold set_stdout, set_files. cbn [files stdout handles].
    split; [apply lookup_insert_eq|done].
Qed.

Lemma files_with_temp_removed req w :
  delete (req_tmp_path req) (files (with_temp req w))
  = delete (req_tmp_path req) (files w).
Proof. unfold with_temp, set_files. cbn [files]. apply delete_insert_eq. Qed.



(** X15. When the markdown conversion raises, the upload fails as a whole:
    the handler answers 500 with that error, prints it, attempts no
    extraction whatever the extension (no document opened, nothing
    allocated), and removes the temporary file. *)
Theorem conversion_failure_is_fatal req w e :
  docling_markdown (req_file req) = Raise e →
  ∃ w',
    convert_document req w = (HTTPException 500 e, w')
    ∧ files w' = delete (req_tmp_path req) (files w)
    ∧ stdout w' = stdout w ++ [LogError e]
    ∧ handles w' = handles w.
Proof.
  intros Hmd. rewrite convert_document_unfold.
  unfold convert_inner, bind at 1.
  rewrite convert_to_markdown_with_temp, Hmd.
  eexists. split; [reflexivity|]. split; [|done].
  unfold set_stdout, set_files at 1. cbn [files].
  apply files_with_temp_removed.
Qed.

Lemma conversion_failure_is_fatal_witness :
  ∃ w',
    convert_document Fixture.unconvertible_request Sample.empty_world
    = (HTTPException 500 (ConversionError "unsupported"), w')
    ∧ files w'
      = delete (req_tmp_path Fixture.unconvertible_request)
          (files Sample.empty_world)
    ∧ stdout w'
      = stdout Sample.empty_world ++ [LogError (ConversionError "unsupported")]
    ∧ handles w' = handles Sample.empty_world.
Proof.
  apply (conversion_failure_is_fatal Fixture.unconvertible_request
           Sample.empty_world).
  reflexivity.
Defined.

Lemma ocr_try_body_Ok req w d h w1 :
  ocr_try_body req w = (Ok (d, h), w1) → d = Some (req_uuid req) ∧ h = true.
Proof.
  unfold ocr_try_body, bind at 1.
  destruct (create_document_storage _ w) as [[dir|e] w0]; [|done].
  unfold bind at 1.
  destruct (process_pdf _ _ w0) as [[[images regs]|e] w2]; [|done].
  unfold bind at 1.
  destruct (save_loop _ _ _ w2) as [[[]|e] w3]; [|done].
  unfold bind, print, ret. by intros [= <- <- _].
Qed.

(** X16. In every response of the handler [doc_id] and [has_ocr] go
    together: either [doc_id] is null and [has_ocr] false, or the upload
    was a PDF, [doc_id] is the identifier minted for it and [has_ocr] is
    true. *)
Theorem response_doc_id_iff_has_ocr req w r w' :
  convert_document req w = (Returned r, w') →
  (doc_id r = None ∧ has_ocr r = false)
  ∨ (doc_id r = Some (req_uuid req) ∧ has_ocr r = true
     ∧ lower (req_suffix req) = ".pdf"%string).
Proof.
  rewrite convert_document_unfold.
  destruct (convert_inner req (with_temp req w)) as [[r0|e] w1] eqn:Hinner;
    [|done].
  intros [= <- _]. revert Hinner. unfold convert_inner, bind at 1.
  destruct (convert_to_markdown _ _) as [[md|e] w2]; [|done].
  case_bool_decide as Hpdf.
  - unfold bind, try_except.
    destruct (ocr_try_body req w2) as [[[d h]|e] w3] eqn:Hbody.
    + apply ocr_try_body_Ok in Hbody as [-> ->].
      unfold ret. intros [= <-]. by right.
    + unfold ocr_except, bind, print, ret. intros [= <-]. by left.
  - unfold bind, ret. intros [= <-]. by left.
Qed.

Lemma response_doc_id_iff_has_ocr_witness :
  (doc_id {| markdown := "# Hello World"; doc_id := Some "doc-1"; has_ocr := true |}
   = None
   ∧ has_ocr {| markdown := "# Hello World"; doc_id := Some "doc-1"; has_ocr := true |}
     = false)
  ∨ (doc_id {| markdown := "# Hello World"; doc_id := Some "doc-1"; has_ocr := true |}
     = Some (req_uuid Sample.good_request)
     ∧ has_ocr {| markdown := "# Hello World"; doc_id := Some "doc-1"; has_ocr := true |}
       = true
     ∧ lower (req_suffix Sample.good_request) = ".pdf"%string).
Proof.
  apply (response_doc_id_iff_has_ocr Sample.good_request Sample.empty_world
           _ Fixture.uploaded).
  vm_compute. reflexivity.
Defined.

(** ** When allocating and saving go through *)

Lemma mkdir_walk_succeeds base todo : ∀ fs,
  (∀ k c, (0 < k ≤ length todo)%nat →
          fs !! (base ++ take k todo) ≠ Some (File c)) →
  ∃ fs', mkdir_walk base todo fs = (Ok tt, fs').
Proof.
  revert base. induction todo as [|x rest IH]; intros base fs Hfree; simpl.
  - by eexists.
  - assert (Hnext : ∀ fs1 : gmap path node,
              (∀ p, fs1 !! p = fs !! p ∨ fs1 !! p = Some Dir) →
              ∀ k c, (0 < k ≤ length rest)%nat →
                fs1 !! ((base ++ [x]) ++ take k rest) ≠ Some (File c)).
    { intros fs1 Hfs1 k c Hk. rewrite <- app_assoc. simpl.
      destruct (Hfs1 (base ++ x :: take k rest)) as [-> | ->]; [|done].
      apply (Hfree (S k) c). simpl. lia. }
    destruct (fs !! (base ++ [x])) as [[|c0]|] eqn:Hp.
    + apply IH, Hnext. by left.
    + exfalso. apply (Hfree 1%nat c0); [simpl; lia|]. simpl.
      by rewrite take_0.
    + apply IH, Hnext. intros p.
      destruct (decide (p = base ++ [x])) as [->|Hne].
      * right. apply lookup_insert_eq.
      * left. by apply lookup_insert_ne.
Qed.

Lemma doc_dir_take (fs : gmap path node) (d tail : string) (k : nat)
  (c : content) :
  root_clear fs → fresh_doc fs d →
  fs !! ([] ++ take k (_doc_dir d ++ [tail])) ≠ Some (File c).
Proof.
  intros Hroot Hfresh. simpl.
  destruct k as [|[|[|k]]].
  - apply (Hroot 0%nat c).
  - apply (Hroot 1%nat c).
  - apply (Hroot 2%nat c).
  - rewrite Hfresh; [done|]. unfold _doc_dir, BASE_DIR. simpl.
    destruct k; [exists []; reflexivity|].
    exists [tail]. simpl. by rewrite take_nil.
Qed.

Lemma create_document_storage_succeeds d w :
  root_clear (files w) → fresh_doc (files w) d →
  ∃ w', create_document_storage d w = (Ok (_doc_dir d), w').
Proof.
  intros Hroot Hfresh.
  unfold create_document_storage, bind, mkdir_parents, ret.
  destruct (mkdir_walk_succeeds [] (_doc_dir d ++ ["pages"%string]) (files w))
    as [fs1 H1].
  { intros k c _. by apply doc_dir_take. }
  rewrite H1. cbn [files set_files].
  destruct (mkdir_walk_succeeds [] (_doc_dir d ++ ["ocr"%string]) fs1)
    as [fs2 H2].
  { intros k c _.
    destruct (mkdir_walk_lookup _ _ _ _ _ H1
                ([] ++ take k (_doc_dir d ++ ["ocr"%string])))
      as [-> | [-> _]]; [|done].
    by apply doc_dir_take. }
  rewrite H2. by eexists.
Qed.

(** A save loop on an allocated document, with no page file blocked by a
    directory and no write refused, returns; every page of the list is then
    on disk and nothing else has changed. *)
Lemma save_loop_Ok d pairs : ∀ i w,
  files w !! (_doc_dir d ++ ["pages"%string]) = Some Dir →
  files w !! (_doc_dir d ++ ["ocr"%string]) = Some Dir →
  (∀ n, files w !! page_image_file d n ≠ Some Dir
        ∧ files w !! page_ocr_file d n ≠ Some Dir) →
  (∀ n, (page_image_file d n ∉ faults w) ∧ (page_ocr_file d n ∉ faults w)) →
  ∃ w',
    save_loop d i pairs w = (Ok tt, w')
    ∧ faults w' = faults w ∧ handles w' = handles w ∧ stdout w' = stdout w
    ∧ (∀ j img rs, pairs !! j = Some (img, rs) →
         files w' !! page_image_file d (i + Z.of_nat j + 1)
         = Some (File (PngFile img))
         ∧ files w' !! page_ocr_file d (i + Z.of_nat j + 1)
           = Some (File (JsonFile rs)))
    ∧ (∀ p, (∀ j, (j < length pairs)%nat →
                  p ≠ page_image_file d (i + Z.of_nat j + 1)
                  ∧ p ≠ page_ocr_file d (i + Z.of_nat j + 1)) →
            files w' !! p = files w !! p).
Proof.
  induction pairs as [|[img rs] rest IH]; intros i w Hpages Hocr Hnodir Hfaults.
  { exists w. by repeat split. }
  cbn [save_loop]. unfold bind at 1.
  unfold save_page_image, bind at 1. fold (page_image_file d (i + 1)).
  rewrite write_file_Ok;
    [|by rewrite parent_image_file|rewrite node_at_image_file; apply Hnodir
     |apply Hfaults].
  unfold ret at 1. unfold bind at 1.
  unfold save_page_ocr, bind at 1. fold (page_ocr_file d (i + 1)).
  set (w1 := set_files _ w).
  assert (Hw1 : ∀ p, files w1 !! p
                     = if decide (page_image_file d (i + 1) = p)
                       then Some (File (PngFile img)) else files w !! p).
  { intros p. unfold w1, set_files. cbn [files]. apply lookup_insert. }
  rewrite write_file_Ok.
  2:{ rewrite parent_ocr_file. cbn. rewrite Hw1, decide_False; [done|].
      apply page_image_file_ne_dir. }
  2:{ rewrite node_at_ocr_file, Hw1, decide_False; [apply Hnodir|].
      apply page_image_file_ne_ocr. }
  2:{ apply Hfaults. }
  unfold ret at 1.
  set (w2 := set_files _ w1).
  assert (Hw2 : ∀ p, files w2 !! p
                     = if decide (page_ocr_file d (i + 1) = p)
                       then Some (File (JsonFile rs)) else files w1 !! p).
  { intros p. unfold w2, set_files. cbn [files]. apply lookup_insert. }
  destruct (IH (i + 1) w2) as (w' & Hloop & Hf & Hh & Ho & Hsaved & Hkeep).
  { rewrite Hw2, decide_False by apply page_ocr_file_ne_dir.
    rewrite Hw1, decide_False by apply page_image_file_ne_dir. done. }
  { rewrite Hw2, decide_False by apply page_ocr_file_ne_dir.
    rewrite Hw1, decide_False by apply page_image_file_ne_dir. done. }
  { intros n. rewrite !Hw2, !Hw1. split; repeat case_decide; try done;
      apply Hnodir. }
  { done. }
  exists w'. split; [done|]. split; [done|]. split; [done|]. split; [done|].
  split.
  - intros [|j] img' rs' Hlook; simpl in Hlook.
    + injection Hlook as <- <-. rewrite Z.add_0_r. rewrite !Hkeep.
      * rewrite !Hw2, !Hw1.
        rewrite (decide_False (P := page_ocr_file d (i + 1) = page_image_file d (i + 1)))
          by apply not_eq_sym, page_image_file_ne_ocr.
        by rewrite !decide_True.
      * intros j Hj. split; [by apply not_eq_sym, page_image_file_ne_ocr|].
        intros H%page_ocr_file_inj. lia.
      * intros j Hj. split; [|by apply page_image_file_ne_ocr].
        intros H%page_image_file_inj. lia.
    + replace (i + Z.of_nat (S j) + 1) with (i + 1 + Z.of_nat j + 1) by lia.
      by apply Hsaved.
  - intros p Hp. rewrite Hkeep.
    + rewrite Hw2, Hw1.
      destruct (Hp 0%nat) as [Hi Hr]; [simpl; lia|].
      rewrite Z.add_0_r in Hi, Hr.
      rewrite decide_False by done. by rewrite decide_False.
    + intros j Hj. destruct (Hp (S j)) as [Hi Hr]; [simpl; lia|].
      replace (i + Z.of_nat (S j) + 1) with (i + 1 + Z.of_nat j + 1) in Hi, Hr
        by lia.
      done.
Qed.

Lemma process_pdf_readable p dpi w doc zoom :
  readable_pdf w p doc → zoom_of_dpi dpi = Ok zoom →
  Forall (page_ok zoom) doc →
  ∃ pixs bss w',
    process_pdf p dpi w
    = (Ok (map PngImage pixs, map (fun bs => block_loop zoom bs []) bss), w')
    ∧ files w' = files w ∧ faults w' = faults w ∧ handles w' = handles w
    ∧ Forall2 (fun pg pix => get_pixmap pg zoom = Ok pix) doc pixs
    ∧ Forall2 (fun pg bs => get_text pg = Ok bs) doc bss.
Proof.
  intros Hdoc Hz Hok.
  destruct (sequence_all_Ok (map (fun pg => get_pixmap pg zoom) doc))
    as [pixs Hpixs].
  { apply Forall_fmap. eapply Forall_impl; [exact Hok|]. intros pg [H _]. exact H. }
  destruct (sequence_all_Ok (map get_text doc)) as [bss Hbss].
  { apply Forall_fmap. eapply Forall_impl; [exact Hok|]. intros pg [_ H]. exact H. }
  exists pixs, bss. eexists.
  unfold process_pdf, bind at 1, print. unfold bind at 1.
  rewrite pdf_to_page_images_unfold.
  set (w1 := set_stdout _ w).
  assert (Hopen1 : fitz_open p w1 = (Ok doc, set_handles S w1))
    by by apply fitz_open_Ok.
  rewrite Hopen1, Hz, Hpixs, set_handles_pred_S.
  unfold bind at 1. unfold bind at 1.
  rewrite extract_text_regions_unfold.
  set (w2 := set_stdout _ w1).
  assert (Hopen2 : fitz_open p w2 = (Ok doc, set_handles S w2))
    by by apply fitz_open_Ok.
  rewrite Hopen2, Hz, Hbss, set_handles_pred_S.
  unfold bind, ret. split.
  - do 3 f_equal. apply map_ext. intros bs. by rewrite block_loop_omap.
  - repeat split; try done; by apply sequence_Ok_Forall2.
Qed.

(** ** A whole upload *)

(** X17. The upload of a PDF that converts, opens and whose P pages all
    render and yield their text, on a disk where the minted identifier is
    unused, the store root is not blocked and no write is refused: the
    handler answers with that identifier and [has_ocr] true, has closed
    every document it opened and removed its temporary file; the store then
    counts P pages for the identifier, and page i+1 holds the image of page
    i of the PDF and serves its region list. *)
Theorem upload_stores_every_page req w md doc :
  lower (req_suffix req) = ".pdf"%string →
  docling_markdown (req_file req) = Ok md →
  mupdf_document (req_file req) = Ok doc →
  Forall (page_ok zoom_150) doc →
  apart (req_tmp_path req) BASE_DIR →
  root_clear (files w) → fresh_doc (files w) (req_uuid req) →
  faults w = ∅ →
  ∃ w',
    convert_document req w
    = (Returned {| markdown := md; doc_id := Some (req_uuid req);
                   has_ocr := true |}, w')
    ∧ handles w' = handles w
    ∧ files w' !! req_tmp_path req = None
    ∧ get_page_count (req_uuid req) w' = (Ok (length doc), w')
    ∧ ∀ i pg, doc !! i = Some pg →
        ∃ pix blocks,
          get_pixmap pg zoom_150 = Ok pix ∧ get_text pg = Ok blocks
          ∧ files w' !! page_image_file (req_uuid req) (Z.of_nat i + 1)
            = Some (File (PngFile (PngImage pix)))
          ∧ get_page_ocr (req_uuid req) (Z.of_nat i + 1) w'
            = (Ok (Some (block_loop zoom_150 blocks [])), w').
Proof.
  intros Hpdf Hmd Hdoc Hok [Htmp1 Htmp2] Hroot Hfresh Hfaults.
  set (d := req_uuid req). set (tmp := req_tmp_path req).
  assert (Hout : ∀ tail, tmp ≠ _doc_dir d ++ tail).
  { intros tail Heq. apply Htmp2. fold tmp. rewrite Heq. unfold _doc_dir.
    rewrite <- app_assoc. by apply prefix_app_r. }
  (* the disk once the upload is in its temporary file *)
  assert (Hwt : ∀ p, p ≠ tmp → files (with_temp req w) !! p = files w !! p).
  { intros p Hp. unfold with_temp, set_files. cbn [files].
    by apply lookup_insert_ne. }
  assert (Hroot_t : root_clear (files (with_temp req w))).
  { intros k c. rewrite Hwt; [apply Hroot|].
    intros Heq. apply Htmp1. fold tmp. rewrite <- Heq. apply prefix_take. }
  assert (Hfresh_t : fresh_doc (files (with_temp req w)) d).
  { intros p [tail ->]. rewrite Hwt; [|by apply not_eq_sym, Hout].
    apply Hfresh. by exists tail. }
  destruct (create_document_storage_succeeds d _ Hroot_t Hfresh_t)
    as [w0 Hcreate].
  pose proof (create_document_storage_effect _ _ _ _ Hcreate)
    as (Hf0 & Hsub & Hnew).
  pose proof (create_document_storage_Ok _ _ _ _ Hcreate)
    as (_ & _ & _ & Hh0 & _ & _ & Hpages & Hocr).
  (* the pipeline *)
  assert (Hread : readable_pdf w0 tmp doc).
  { exists (req_file req). split; [|done].
    eapply lookup_weaken; [|exact Hsub].
    unfold with_temp, set_files. cbn [files]. apply lookup_insert_eq. }
  destruct (process_pdf_readable tmp default_dpi w0 doc zoom_150 Hread
              zoom_of_dpi_150 Hok)
    as (pixs & bss & w1 & Hproc & Hf1 & Hflt1 & Hh1 & Hpix & Htxt).
  (* below the pages and ocr directories nothing but what the loop saves *)
  assert (Hlong : ∀ p, (4 < length p)%nat → _doc_dir d `prefix_of` p →
                       files w1 !! p = None).
  { intros p Hlen Hp. rewrite Hf1.
    destruct (Hnew p) as [->|[_ (k & tail & Hk & _ & ->)]].
    - by apply Hfresh_t.
    - rewrite length_take in Hlen. lia. }
  destruct (save_loop_Ok d (zip (map PngImage pixs)
                              (map (fun bs => block_loop zoom_150 bs []) bss))
              0 w1)
    as (w2 & Hloop & _ & Hh2 & _ & Hsaved & Hkeep).
  { by rewrite Hf1. }
  { by rewrite Hf1. }
  { intros n. rewrite !Hlong; [done| | | |];
      try (by apply prefix_app_r);
      unfold page_ocr_file, page_image_file, _doc_dir; simpl; lia. }
  { intros n. rewrite Hflt1, Hf0. unfold with_temp, set_files. cbn [faults].
    rewrite Hfaults. split; apply not_elem_of_empty. }
  (* the handler *)
  assert (Hbody : ocr_try_body req (with_temp req w)
                  = (Ok (Some d, true),
                     set_stdout (fun out => out ++ [LogProcessed (length (map PngImage pixs)) d]) w2)).
  { unfold ocr_try_body, bind at 1. fold d. rewrite Hcreate.
    unfold bind at 1. fold tmp. rewrite Hproc.
    unfold bind at 1. rewrite Hloop. done. }
  rewrite (convert_document_pdf req w md Hpdf Hmd), Hbody.
  eexists. split; [reflexivity|].
  assert (Hlen_pix : length pixs = length doc)
    by (symmetry; by eapply Forall2_length).
  assert (Hlen_bss : length bss = length doc)
    by (symmetry; by eapply Forall2_length).
  assert (Hfinal : ∀ tail,
            files (set_files (fun fs => delete tmp fs)
                     (set_stdout (fun out => out ++ [LogProcessed (length (map PngImage pixs)) d]) w2))
              !! (_doc_dir d ++ tail)
            = files w2 !! (_doc_dir d ++ tail)).
  { intros tail. unfold set_files, set_stdout. cbn [files].
    apply lookup_delete_ne, Hout. }
  assert (Hpair : ∀ i pg, doc !! i = Some pg →
            ∃ pix blocks,
              get_pixmap pg zoom_150 = Ok pix ∧ get_text pg = Ok blocks
              ∧ zip (map PngImage pixs)
                    (map (fun bs => block_loop zoom_150 bs []) bss) !! i
                = Some (PngImage pix, block_loop zoom_150 blocks [])).
  { intros i pg Hi.
    destruct (Forall2_lookup_l _ _ _ _ _ Hpix Hi) as (pix & Hpi & Hgp).
    destruct (Forall2_lookup_l _ _ _ _ _ Htxt Hi) as (bs & Hbi & Hgt).
    exists pix, bs. split; [done|]. split; [done|].
    apply lookup_zip_with_Some. exists (PngImage pix), (block_loop zoom_150 bs []).
    split; [done|]. change (map ?f ?l) with (f <$> l).
    by rewrite !list_lookup_fmap, Hpi, Hbi. }
  split; [|split; [|split]].
  - unfold set_files, set_stdout. cbn [handles].
    rewrite Hh2, Hh1, Hh0. done.
  - unfold set_files, set_stdout. cbn [files]. apply lookup_delete_eq.
  - rewrite get_page_count_glob.
    2:{ rewrite Hfinal, Hkeep, Hf1; [by eexists|].
        intros j _. split; [apply not_eq_sym, page_image_file_ne_dir
                           |apply not_eq_sym, page_ocr_file_ne_dir]. }
    do 2 f_equal.
    rewrite (glob_pages_length_exact _ _
               (map (fun j => page_png (Z.of_nat j + 1)) (seq 0 (length doc)))).
    { by rewrite length_map, length_seq. }
    { apply NoDup_fmap_2; [|apply NoDup_seq].
      intros j j' H%page_png_inj. lia. }
    intros name. rewrite <- app_assoc, Hfinal.
    split.
    + intros (j & -> & Hj)%list_elem_of_fmap. apply elem_of_seq in Hj.
      split; [apply glob_page_png_page|].
      destruct (lookup_lt_is_Some_2 doc j) as [pg Hpg]; [lia|].
      destruct (Hpair j pg Hpg) as (pix & blocks & _ & _ & Hz).
      destruct (Hsaved j _ _ Hz) as [Hi _]. rewrite Z.add_0_l in Hi.
      unfold page_image_file in Hi. rewrite Hi. by eexists.
    + intros [Hglob Hsome].
      destruct (decide (name ∈ map (fun j => page_png (Z.of_nat j + 1))
                                   (seq 0 (length doc))))
        as [Hin|Hno]; [done|].
      exfalso. rewrite Hkeep in Hsome.
      * rewrite Hlong in Hsome; [by destruct Hsome| |by apply prefix_app_r].
        unfold _doc_dir. simpl. lia.
      * intros j Hj. rewrite length_zip_with, !length_map in Hj.
        split.
        -- unfold page_image_file. intros H%app_inv_head.
           apply Hno, list_elem_of_fmap. exists j.
           rewrite Z.add_0_l in H. simpl in H.
           split; [congruence|]. apply elem_of_seq. lia.
        -- unfold page_ocr_file, _doc_dir. simpl. intros H. by simplify_eq.
  - intros i pg Hi.
    destruct (Hpair i pg Hi) as (pix & blocks & Hgp & Hgt & Hz).
    destruct (Hsaved i _ _ Hz) as [Himg Hreg]. rewrite Z.add_0_l in Himg, Hreg.
    exists pix, blocks. split; [done|]. split; [done|].
    unfold page_image_file in *. split.
    + by rewrite Hfinal.
    + apply get_page_ocr_Some. unfold page_ocr_file in *. by rewrite Hfinal.
Qed.

Lemma upload_stores_every_page_witness :
  ∃ w',
    convert_document Sample.good_request Sample.empty_world
    = (Returned {| markdown := "# Hello World"; doc_id := Some "doc-1"%string;
                   has_ocr := true |}, w')
    ∧ handles w' = 0%nat
    ∧ files w' !! Sample.pdf_path = None
    ∧ get_page_count "doc-1" w' = (Ok 3%nat, w')
    ∧ ∀ i pg, [Sample.page1; Sample.page2; Sample.page3] !! i = Some pg →
        ∃ pix blocks,
          get_pixmap pg zoom_150 = Ok pix ∧ get_text pg = Ok blocks
          ∧ files w' !! page_image_file "doc-1" (Z.of_nat i + 1)
            = Some (File (PngFile (PngImage pix)))
          ∧ get_page_ocr "doc-1" (Z.of_nat i + 1) w'
            = (Ok (Some (block_loop zoom_150 blocks [])), w').
Proof.
  apply (upload_stores_every_page Sample.good_request Sample.empty_world
           "# Hello World" [Sample.page1; Sample.page2; Sample.page3]).
  - reflexivity.
  - reflexivity.
  - reflexivity.
  - repeat constructor; by eexists.
  - split; intros [k Hk]; discriminate Hk.
  - intros k c. simpl. by rewrite lookup_empty.
  - intros p _. apply lookup_empty.
  - reflexivity.
Defined.

(** ** The page endpoints *)





(** X20. A document that has been allocated but has no page image yet is
    reported by [get_page_count_endpoint] as not found, although its
    directories are on the disk. *)
Theorem allocated_document_not_found d w dir w' :
  fresh_doc (files w) d →
  create_document_storage d w = (Ok dir, w') →
  files w' !! _doc_dir d = Some Dir
  ∧ get_page_count_endpoint d w' = (HTTP404 "Document not found", w').
Proof.
  intros Hfresh Hcreate.
  pose proof (create_document_storage_effect _ _ _ _ Hcreate)
    as (_ & _ & Hnew).
  pose proof (create_document_storage_Ok _ _ _ _ Hcreate)
    as (_ & _ & _ & _ & _ & Hdoc & Hpages & _).
  split; [done|].
  unfold get_page_count_endpoint.
  rewrite get_page_count_glob by by eexists.
  rewrite (glob_pages_length_exact _ _ []); [done|constructor|].
  intros name. split; [by intros ?%elem_of_nil|]. intros [_ Hsome].
  exfalso.
  destruct (Hnew ((_doc_dir d ++ ["pages"%string]) ++ [name]))
    as [Heq|[_ (k & tail & Hk & _ & Hp)]].
  - rewrite Heq, Hfresh in Hsome; [by destruct Hsome|].
    rewrite <- app_assoc. by apply prefix_app_r.
  - apply (f_equal length) in Hp. rewrite length_take in Hp.
    unfold _doc_dir in Hp. simpl in Hp. lia.
Qed.

Lemma allocated_document_not_found_witness :
  files Sample.allocated !! _doc_dir "doc-1" = Some Dir
  ∧ get_page_count_endpoint "doc-1" Sample.allocated
    = (HTTP404 "Document not found", Sample.allocated).
Proof.
  apply (allocated_document_not_found "doc-1" Sample.empty_world
           (_doc_dir "doc-1")).
  - intros p _. apply lookup_empty.
  - vm_compute. reflexivity.
Defined.

(** ** Resolution and overwriting *)

(** X21. The resolution changes coordinates only: two extractions of the
    same file at two resolutions return the same texts, page by page and in
    the same order, and both leave the world as they found it. *)
Theorem region_texts_independent_of_dpi pdf_path dpi1 dpi2 w all1 w1 all2 w2 :
  extract_text_regions pdf_path dpi1 w = (Ok all1, w1) →
  extract_text_regions pdf_path dpi2 w = (Ok all2, w2) →
  w1 = w ∧ w2 = w ∧ map (map text) all1 = map (map text) all2.
Proof.
  intros H1 H2.
  destruct (extract_text_regions_Ok _ _ _ _ _ H1) as [-> _].
  destruct (extract_text_regions_Ok _ _ _ _ _ H2) as [-> _].
  split; [done|]. split; [done|].
  rewrite extract_text_regions_unfold in H1, H2.
  destruct (fitz_open pdf_path w) as [[doc|e] w0]; [|done].
  destruct (zoom_of_dpi dpi1) as [z1|]; [|done].
  destruct (zoom_of_dpi dpi2) as [z2|]; [|done].
  destruct (sequence (map get_text doc)) as [bss|]; [|done].
  injection H1 as <- _. injection H2 as <- _.
  rewrite !map_map. apply map_ext. intros bs. by rewrite !omap_region_texts.
Qed.

Lemma region_texts_independent_of_dpi_witness :
  Sample.world_with Sample.pdf = Sample.world_with Sample.pdf
  ∧ Sample.world_with Sample.pdf = Sample.world_with Sample.pdf
  ∧ map (map text) Sample.ocr_results
    = map (map text)
        [[Region [[72; 72]; [216; 72]; [216; 86]; [72; 86]]%float
                 (strip (span_text Sample.hello)) f1]; []; []].
Proof.
  apply (region_texts_independent_of_dpi Sample.pdf_path 150 72
           (Sample.world_with Sample.pdf)).
  - vm_compute. reflexivity.
  - vm_compute. reflexivity.
Defined.

(** X22. Saving the regions of a page again replaces them without a trace:
    the disk after two saves of the same page is the disk a single save of
    the second list would have left. *)
Theorem save_page_ocr_overwrites d n rs1 rs2 w p1 w1 p2 w2 :
  save_page_ocr d n rs1 w = (Ok p1, w1) →
  save_page_ocr d n rs2 w1 = (Ok p2, w2) →
  save_page_ocr d n rs2 w = (Ok p2, w2).
Proof.
  intros H1 H2.
  apply save_page_ocr_inv in H2 as [([= ->] & -> & _)|(e & [=] & _)].
  revert H1. unfold save_page_ocr, bind, write_file, ret.
  fold (page_ocr_file d n). rewrite !parent_ocr_file, !node_at_ocr_file.
  change (node_at ?fs (_doc_dir d ++ ["ocr"%string]))
    with (fs !! (_doc_dir d ++ ["ocr"%string])).
  destruct (files w !! (_doc_dir d ++ ["ocr"%string])) as [[|c]|]; try done.
  destruct (files w !! page_ocr_file d n) as [[|c]|]; try done;
    (case_bool_decide; [done|]); intros [= _ <-];
    destruct w; unfold set_files; cbn [files faults handles stdout];
    by rewrite insert_insert_eq.
Qed.

Lemma save_page_ocr_overwrites_witness :
  save_page_ocr "doc-1" 1 [] Sample.allocated
  = (Ok (page_ocr_file "doc-1" 1),
     snd (save_page_ocr "doc-1" 1 []
            (snd (save_page_ocr "doc-1" 1 [Sample.hello_region]
                    Sample.allocated)))).
Proof.
  apply (save_page_ocr_overwrites "doc-1" 1 [Sample.hello_region] []
           Sample.allocated (page_ocr_file "doc-1" 1)
           (snd (save_page_ocr "doc-1" 1 [Sample.hello_region]
                   Sample.allocated))).
  - vm_compute. reflexivity.
  - vm_compute. reflexivity.
Defined.
